(** * A shallow embedding of [src/database/vector_store.py]

    The TF-IDF vector store: persistence of the three index artifacts
    ([load_model], [save_model]), the corpus scan ([load_documents]) and the
    ranked query ([query]).

    scikit-learn, numpy, pickle and json are libraries, not code of the
    repository.  Their operations are gathered in the class [Externals];
    everything proved about the store holds for every implementation of
    that class, and the few facts about the libraries that a property needs
    (that [argsort] sorts, say) are explicit hypotheses of the theorem.
    [Module Ref] gives one small executable implementation on which the
    model is run on concrete inputs. *)

From Stdlib Require Import List String Ascii Bool Arith ZArith QArith Lia.
From Stdlib Require Import Sorted.
From Stdlib Require Import Permutation.
Import ListNotations.

Local Close Scope Q_scope.
Local Open Scope nat_scope.
Local Open Scope string_scope.
Local Open Scope list_scope.

(** ** Python strings and paths *)

Module PyStr.

(** A text is the sequence of its characters; the model covers the
    characters below 256.  [str.isspace] there: TAB..CR, FS..US, the space,
    NEL and the no-break space. *)
Definition isspace (c : ascii) : bool :=
  let n := nat_of_ascii c in
  (((9 <=? n) && (n <=? 13)) || ((28 <=? n) && (n <=? 32))
   || (n =? 133) || (n =? 160))%nat.

Fixpoint lstrip (s : string) : string :=
  match s with
  | EmptyString => EmptyString
  | String c r => if isspace c then lstrip r else s
  end.

Fixpoint rstrip (s : string) : string :=
  match s with
  | EmptyString => EmptyString
  | String c r =>
      match rstrip r with
      | EmptyString => if isspace c then EmptyString else String c EmptyString
      | r' => String c r'
      end
  end.

(** [s.strip()] *)
Definition strip (s : string) : string := rstrip (lstrip s).

(** Truth value of a string: [if content:]. *)
Definition truthy (s : string) : bool :=
  match s with EmptyString => false | String _ _ => true end.

Definition startswith (s pre : string) : bool := String.prefix pre s.

Definition endswith (s suf : string) : bool :=
  let n := String.length s in
  let m := String.length suf in
  (m <=? n)%nat && String.eqb (String.substring (n - m) m s) suf.

(** [s.replace(old, new)] for a non-empty [old]: leftmost occurrences,
    not overlapping.  [skip] counts the characters of a match still to
    be dropped. *)
Fixpoint replace_from (old new : string) (skip : nat) (s : string) : string :=
  match s with
  | EmptyString => EmptyString
  | String c r =>
      match skip with
      | S k => replace_from old new k r
      | O =>
          if String.prefix old s
          then (new ++ replace_from old new (String.length old - 1) r)%string
          else String c (replace_from old new 0 r)
      end
  end.

Definition replace (s old new : string) : string := replace_from old new 0 s.

(** [os.path.basename]: what follows the last slash. *)
Fixpoint after_last_slash (cur s : string) : string :=
  match s with
  | EmptyString => cur
  | String c r =>
      if Ascii.eqb c "/"%char then after_last_slash r r
      else after_last_slash cur r
  end.

Definition basename (p : string) : string := after_last_slash p p.

(** [os.path.join(a, b)] for a relative [b]. *)
Definition path_join (a b : string) : string :=
  if startswith b "/" then b
  else if negb (truthy a) || endswith a "/" then (a ++ b)%string
  else (a ++ "/" ++ b)%string.

(** [fnmatch] of a file name against the pattern [pre*suf]. *)
Definition fnmatch_star (pre suf name : string) : bool :=
  startswith name pre
  && endswith (String.substring (String.length pre)
                 (String.length name - String.length pre) name) suf.

End PyStr.

(** ** Python sequences *)

Module PySeq.

(** [a[start:]] with Python's treatment of a negative or too large start. *)
Definition slice_from {A} (start : Z) (a : list A) : list A :=
  let n := Z.of_nat (List.length a) in
  let s := if (start <? 0)%Z then Z.max (n + start) 0 else Z.min start n in
  skipn (Z.to_nat s) a.

(** [a[::-1]] *)
Definition reversed {A} (a : list A) : list A := rev a.

End PySeq.

(** ** Exceptions and the store's effects *)

Inductive Exn : Type :=
| FileNotFoundError
| OSError
| EOFError
| UnicodeDecodeError
| UnpicklingError
| JSONDecodeError
| ValueError
| NotFittedError
| IndexError.

Inductive Result (A : Type) : Type :=
| Ok (a : A)
| Raise (e : Exn).
Arguments Ok {A} a.
Arguments Raise {A} e.

(** ** Data model *)

Record Metadata : Type := mkMetadata { source : string }.

(** An element of [document_data]: [{"id", "content", "metadata"}]. *)
Record DocumentRecord : Type := mkDocument {
  id : string;
  content : string;
  metadata : Metadata
}.

(** An element of the list [query] returns. *)
Record QueryResult : Type := mkResult {
  r_content : string;
  r_metadata : Metadata;
  r_id : string;
  similarity : Q
}.

(** ** The libraries the store calls *)

Class Externals : Type := {
  (** a [TfidfVectorizer] object, a document-term matrix, a transformed
      query, the bytes of a file *)
  Vectorizer : Type;
  Matrix : Type;
  QueryVector : Type;
  Bytes : Type;
  (** [TfidfVectorizer(stop_words='english')], not fitted *)
  TfidfVectorizer : Vectorizer;
  (** [vectorizer.fit_transform(documents)] changes the vectorizer in place
      and returns the matrix, or raises *)
  fit_transform : Vectorizer -> list string -> Result Matrix * Vectorizer;
  (** [vectorizer.transform([query_text])] *)
  transform : Vectorizer -> list string -> Result QueryVector;
  (** [cosine_similarity(query_vector, vectors).flatten()]; a float is
      modelled as a rational (no NaN, no rounding) *)
  cosine_similarity : QueryVector -> Matrix -> Result (list Q);
  (** [similarities.argsort()] *)
  argsort : list Q -> list nat;
  (** number of rows of a matrix *)
  shape0 : Matrix -> nat;
  (** [pickle.dump] / [pickle.load], [json.dump] / [json.load],
      [np.save] / [np.load]; the store is typed, so [json_load] stands
      for [json.load] on a file that holds a list of records and raises
      on any other.  Nothing is assumed of [np_load] on what [np_save]
      wrote: [np.save] is given the sparse matrix of the fit and [np.load]
      is called without [allow_pickle] *)
  pickle_dump : Vectorizer -> Bytes;
  pickle_load : Bytes -> Result Vectorizer;
  json_dump : list DocumentRecord -> Bytes;
  json_load : Bytes -> Result (list DocumentRecord);
  np_save : Matrix -> Bytes;
  np_load : Bytes -> Result Matrix
}.

(** ** Log *)

Inductive Level : Type := INFO | WARNING | ERROR.

(** The messages of the module, one constructor per [logger] call. *)
Inductive Message : Type :=
| LoadedExistingModel
| CreatedNewModel
| LoadedFromDisk (n : nat)
| ErrorLoadingModel (e : Exn)
| SavedToDisk (n : nat)
| ErrorSavingModel (e : Exn)
| AlreadyContains (n : nat)
| ForceReloading
| FoundChunkFiles (n : nat)
| ErrorReadingFile (file_path : string) (e : Exn)
| LoadedIntoStore (n : nat)
| NoDocumentsLoaded
| StoreIsEmpty
| ErrorQuerying (e : Exn).

Definition LogEntry : Type := (Level * Message)%type.

(** ** Files *)

(** The three artifacts under [DB_DIR]. *)
Inductive Artifact : Type := VectorizerPkl | DocumentsJson | VectorsNpy.

(** What a write does: it succeeds, [open] raises (the file is left as it
    was), or the dump raises after [open] has truncated the file. *)
Inductive WriteFault : Type :=
| WriteOk
| OpenFails (e : Exn)
| DumpFails (e : Exn).

(** The environment of a run: the corpus directory with what reading each
    path gives, and the behaviour of writes under [DB_DIR]. *)
Record Env : Type := mkEnv {
  DOCS_DIR : string;
  listdir : list string;
  read_text : string -> Result string;
  write_fault : Artifact -> WriteFault
}.

(** [glob.glob(os.path.join(DOCS_DIR, "me_chunk_*.txt"))], for a [DOCS_DIR]
    that holds no character special to [glob] (it is a fixed path of
    [src/config.py]): the pattern then bears on the file names only. *)
Definition glob_chunks (env : Env) : list string :=
  map (PyStr.path_join (DOCS_DIR env))
      (filter (PyStr.fnmatch_star "me_chunk_" ".txt") (listdir env)).

Section Store.

Context {E : Externals}.

(** A file under [DB_DIR]: absent, present but cut short, or written. *)
Inductive File : Type :=
| Missing
| Partial
| Written (b : Bytes).

Record Db : Type := mkDb {
  vectorizer_file : File;
  documents_file : File;
  vectors_file : File
}.

Definition db_get (a : Artifact) (d : Db) : File :=
  match a with
  | VectorizerPkl => vectorizer_file d
  | DocumentsJson => documents_file d
  | VectorsNpy => vectors_file d
  end.

Definition db_put (a : Artifact) (f : File) (d : Db) : Db :=
  match a with
  | VectorizerPkl => mkDb f (documents_file d) (vectors_file d)
  | DocumentsJson => mkDb (vectorizer_file d) f (vectors_file d)
  | VectorsNpy => mkDb (vectorizer_file d) (documents_file d) f
  end.

(** [os.path.exists] *)
Definition path_exists (a : Artifact) (d : Db) : bool :=
  match db_get a d with Missing => false | _ => true end.

(** The attributes of a [VectorStore] object. *)
Record Store : Type := mkStore {
  vectorizer : Vectorizer;
  document_data : list DocumentRecord;
  vectors : option Matrix
}.

Record World : Type := mkWorld {
  self : Store;
  db : Db;
  log : list LogEntry
}.

(** A method: it runs on a world, returns or raises, and leaves a world
    (what was changed before a raise stays changed). *)
Definition M (A : Type) : Type := World -> Result A * World.

Definition ret {A} (a : A) : M A := fun w => (Ok a, w).

Definition bind {A B} (c : M A) (k : A -> M B) : M B :=
  fun w =>
    match c w with
    | (Ok a, w') => k a w'
    | (Raise e, w') => (Raise e, w')
    end.

Definition raise {A} (e : Exn) : M A := fun w => (Raise e, w).

Definition lift {A} (r : Result A) : M A := fun w => (r, w).

(** [try: body except Exception as e: handler] *)
Definition try_except {A} (body : M A) (handler : Exn -> M A) : M A :=
  fun w =>
    match body w with
    | (Ok a, w') => (Ok a, w')
    | (Raise e, w') => handler e w'
    end.

End Store.

Declare Scope py_scope.
Delimit Scope py_scope with py.
Notation "x <- c ;; k" := (bind c (fun x => k))
  (at level 61, c at next level, right associativity) : py_scope.
Notation "c ;; k" := (bind c (fun _ => k))
  (at level 61, right associativity) : py_scope.


(** [x > y] on floats *)
Definition Qgtb (x y : Q) : bool := negb (Qle_bool x y).

(** The id of a chunk: [os.path.basename(file_path).replace(".txt", "")]. *)
Definition file_id_of (file_path : string) : string :=
  PyStr.replace (PyStr.basename file_path) ".txt" "".

Section Methods.

Context {E : Externals}.

Local Open Scope py_scope.

(** *** Attribute access, logging, files *)

Definition get_self : M Store := fun w => (Ok (self w), w).

Definition set_vectorizer (v : Vectorizer) : M unit :=
  fun w =>
    (Ok tt,
     mkWorld (mkStore v (document_data (self w)) (vectors (self w)))
             (db w) (log w)).

Definition set_document_data (d : list DocumentRecord) : M unit :=
  fun w =>
    (Ok tt,
     mkWorld (mkStore (vectorizer (self w)) d (vectors (self w)))
             (db w) (log w)).

Definition set_vectors (m : option Matrix) : M unit :=
  fun w =>
    (Ok tt,
     mkWorld (mkStore (vectorizer (self w)) (document_data (self w)) m)
             (db w) (log w)).

Definition logger (l : Level) (m : Message) : M unit :=
  fun w => (Ok tt, mkWorld (self w) (db w) (log w ++ [(l, m)])).

(** [with open(path, 'r') as f: load(f)] on an artifact. *)
Definition read_artifact {A} (a : Artifact) (load : Bytes -> Result A) : M A :=
  fun w =>
    match db_get a (db w) with
    | Missing => (Raise FileNotFoundError, w)
    | Partial => (Raise EOFError, w)
    | Written b => (load b, w)
    end.

(** [with open(path, 'w') as f: dump(obj, f)] on an artifact. *)
Definition write_artifact (env : Env) (a : Artifact) (b : Bytes) : M unit :=
  fun w =>
    match write_fault env a with
    | WriteOk => (Ok tt, mkWorld (self w) (db_put a (Written b) (db w)) (log w))
    | OpenFails e => (Raise e, w)
    | DumpFails e => (Raise e, mkWorld (self w) (db_put a Partial (db w)) (log w))
    end.

(** *** [VectorStore.count] *)

Definition count (s : Store) : nat := List.length (document_data s).

(** *** [VectorStore.load_model] *)

Definition load_model : M unit :=
  try_except
    (v <- read_artifact VectorizerPkl pickle_load ;;
     set_vectorizer v ;;
     d <- read_artifact DocumentsJson json_load ;;
     set_document_data d ;;
     m <- read_artifact VectorsNpy np_load ;;
     set_vectors (Some m) ;;
     s <- get_self ;;
     logger INFO (LoadedFromDisk (List.length (document_data s))))
    (fun e =>
       logger ERROR (ErrorLoadingModel e) ;;
       set_vectorizer TfidfVectorizer ;;
       set_document_data [] ;;
       set_vectors None).

(** *** [VectorStore.__init__]

    [os.makedirs(DB_DIR, exist_ok=True)] is taken to succeed: importing
    [src.config] has already created the directory. *)

Definition init : M unit :=
  fun w =>
    if path_exists VectorizerPkl (db w)
       && path_exists DocumentsJson (db w)
       && path_exists VectorsNpy (db w)
    then (load_model ;; logger INFO LoadedExistingModel) w
    else (set_vectorizer TfidfVectorizer ;;
          set_document_data [] ;;
          set_vectors None ;;
          logger INFO CreatedNewModel) w.

(** *** [VectorStore.save_model] *)

Definition save_model (env : Env) : M unit :=
  try_except
    (s <- get_self ;;
     write_artifact env VectorizerPkl (pickle_dump (vectorizer s)) ;;
     write_artifact env DocumentsJson (json_dump (document_data s)) ;;
     match vectors s with
     | Some m => write_artifact env VectorsNpy (np_save m)
     | None => ret tt
     end ;;
     logger INFO (SavedToDisk (List.length (document_data s))))
    (fun e => logger ERROR (ErrorSavingModel e)).

(** *** [VectorStore.load_documents] *)

(** The loop over [chunk_files]; [documents] and [document_data] are the two
    lists it appends to. *)
Fixpoint read_chunks (env : Env) (chunk_files : list string)
    (documents : list string) (document_data : list DocumentRecord)
  : M (list string * list DocumentRecord) :=
  match chunk_files with
  | [] => ret (documents, document_data)
  | file_path :: rest =>
      let file_id := file_id_of file_path in
      acc <- try_except
               (text <- lift (read_text env file_path) ;;
                let content := PyStr.strip text in
                if PyStr.truthy content
                then ret (documents ++ [content],
                          document_data
                            ++ [mkDocument file_id content (mkMetadata file_path)])
                else ret (documents, document_data))
               (fun e =>
                  logger ERROR (ErrorReadingFile file_path e) ;;
                  ret (documents, document_data)) ;;
      read_chunks env rest (fst acc) (snd acc)
  end.

Definition load_documents (env : Env) (force_reload : bool) : M unit :=
  s <- get_self ;;
  if negb force_reload && (0 <? count s)%nat
  then logger INFO (AlreadyContains (count s))
  else
    (if force_reload
     then logger INFO ForceReloading ;;
          set_document_data [] ;;
          set_vectors None
     else ret tt) ;;
    let chunk_files := glob_chunks env in
    logger INFO (FoundChunkFiles (List.length chunk_files)) ;;
    acc <- read_chunks env chunk_files [] [] ;;
    let documents := fst acc in
    let document_data := snd acc in
    match documents with
    | _ :: _ =>
        s <- get_self ;;
        let fitted := fit_transform (vectorizer s) documents in
        set_vectorizer (snd fitted) ;;
        m <- lift (fst fitted) ;;
        set_vectors (Some m) ;;
        set_document_data document_data ;;
        save_model env ;;
        logger INFO (LoadedIntoStore (List.length documents))
    | [] => logger WARNING NoDocumentsLoaded
    end.

(** *** [VectorStore.query] *)

(** The loop over [top_indices]; [results] is the list it appends to. *)
Fixpoint collect_results (similarities : list Q)
    (document_data : list DocumentRecord) (top_indices : list nat)
    (results : list QueryResult) : Result (list QueryResult) :=
  match top_indices with
  | [] => Ok results
  | idx :: rest =>
      match nth_error similarities idx with
      | None => Raise IndexError
      | Some sim =>
          if Qgtb sim 0
          then
            match nth_error document_data idx with
            | None => Raise IndexError
            | Some doc =>
                collect_results similarities document_data rest
                  (results
                     ++ [mkResult (content doc) (metadata doc) (id doc) sim])
            end
          else collect_results similarities document_data rest results
      end
  end.

(** [similarities.argsort()[-n_results:][::-1]] *)
Definition top_indices_of (similarities : list Q) (n_results : Z) : list nat :=
  PySeq.reversed (PySeq.slice_from (- n_results)%Z (argsort similarities)).

Definition query (query_text : string) (n_results : Z) : M (list QueryResult) :=
  s <- get_self ;;
  match document_data s, vectors s with
  | _ :: _, Some m =>
      try_except
        (query_vector <- lift (transform (vectorizer s) [query_text]) ;;
         similarities <- lift (cosine_similarity query_vector m) ;;
         let top_indices := top_indices_of similarities n_results in
         lift (collect_results similarities (document_data s) top_indices []))
        (fun e => logger ERROR (ErrorQuerying e) ;; ret [])
  | _, _ => logger WARNING StoreIsEmpty ;; ret []
  end.

End Methods.


(** ** Notions the properties are stated with *)

(** [similarities[i]], 0 out of range. *)
Definition sim_at (similarities : list Q) (i : nat) : Q := nth i similarities 0%Q.

Section Notions.

Context {E : Externals}.

(** The state [__init__] and the [except] branch of [load_model] set up:
    a vectorizer that is not fitted, no document, no matrix. *)
Definition empty_store : Store := mkStore TfidfVectorizer [] None.

(** The three artifacts are written and deserialise to [v], [d] and [m]. *)
Definition stored (d : Db) (v : Vectorizer) (docs : list DocumentRecord)
    (m : Matrix) : Prop :=
  exists bv bd bm,
    d = mkDb (Written bv) (Written bd) (Written bm)
    /\ pickle_load bv = Ok v /\ json_load bd = Ok docs /\ np_load bm = Ok m.

(** An artifact that cannot be loaded: absent, cut short, or refused by its
    deserialiser. *)
Definition unusable {A} (load : Bytes -> Result A) (f : File) : Prop :=
  f = Missing \/ f = Partial \/ exists b e, f = Written b /\ load b = Raise e.

(** [len(matrix) == len(document_records)]; a store without a matrix is
    consistent when it has no document. *)
Definition consistent (s : Store) : Prop :=
  match vectors s with
  | Some m => shape0 m = List.length (document_data s)
  | None => document_data s = []
  end.

(** The result [r] was built from [document_data[i]]. *)
Definition built_from (docs : list DocumentRecord) (i : nat) (r : QueryResult)
  : Prop :=
  exists doc,
    nth_error docs i = Some doc
    /\ r = mkResult (content doc) (metadata doc) (id doc) (similarity r).

(** The result [r] was built from [document_data[i]] with the similarity
    [similarities[i]], which is positive. *)
Definition kept_at (docs : list DocumentRecord) (sims : list Q) (i : nat)
    (r : QueryResult) : Prop :=
  built_from docs i r /\ similarity r = sim_at sims i /\ (0 < similarity r)%Q.

(** [x] is listed before [y] in [l]. *)
Definition listed_before {A} (l : list A) (x y : A) : Prop :=
  exists a b, a < b /\ nth_error l a = Some x /\ nth_error l b = Some y.

(** Results of equal similarity come in the order of their documents. *)
Definition ties_in_document_order (docs : list DocumentRecord)
    (rs : list QueryResult) : Prop :=
  forall p q rp rq i j,
    p < q ->
    nth_error rs p = Some rp -> nth_error rs q = Some rq ->
    (similarity rp == similarity rq)%Q ->
    built_from docs i rp -> built_from docs j rq ->
    i < j.

(** The record a chunk file gives: none when it cannot be read or is empty
    once stripped. *)
Definition record_for (env : Env) (file_path : string) : list DocumentRecord :=
  match read_text env file_path with
  | Ok text =>
      if PyStr.truthy (PyStr.strip text)
      then [mkDocument (file_id_of file_path) (PyStr.strip text)
                       (mkMetadata file_path)]
      else []
  | Raise _ => []
  end.

(** The scan yields no usable document: every chunk file is unreadable or
    empty once stripped (or there is no chunk file). *)
Definition nothing_usable (env : Env) : Prop :=
  forall path,
    In path (glob_chunks env) ->
    match read_text env path with
    | Ok text => PyStr.strip text = EmptyString
    | Raise _ => True
    end.

(** The log entry a chunk file gives: one error when it cannot be read. *)
Definition read_error_for (env : Env) (file_path : string) : list LogEntry :=
  match read_text env file_path with
  | Ok _ => []
  | Raise e => [(ERROR, ErrorReadingFile file_path e)]
  end.

End Notions.

(** ** What the properties assume of [argsort] *)

Section ArgsortContract.

Context {E : Externals}.

(** The indices [argsort] returns list the values in ascending order. *)
Definition argsort_sorts : Prop :=
  forall a : list Q,
    StronglySorted (fun i j => (sim_at a i <= sim_at a j)%Q) (argsort a).

End ArgsortContract.

(** ** A reference implementation of the libraries

    Tokens are the maximal runs of letters and digits, lower-cased, of two
    characters or more and outside a short stop list; the vocabulary lists
    them in order of first appearance; a row holds the counts of the
    vocabulary's terms.  The similarity is the square of the cosine, a
    rational: on vectors of counts it has the sign, the order and the ties
    of the cosine.  [argsort] is an insertion sort; the order it gives to
    equal values is one of those an [argsort] may give, and no property of
    the store is proved from it.  [np_save] writes the matrix of the fit as
    a pickled array and [np_load] refuses such a file, as [np.load] does
    without [allow_pickle]; it reads a file that holds a plain array. *)

Module Ref.

Definition is_alnum (c : ascii) : bool :=
  let n := nat_of_ascii c in
  (((48 <=? n) && (n <=? 57)) || ((65 <=? n) && (n <=? 90))
   || ((97 <=? n) && (n <=? 122)))%nat.

Definition lower (c : ascii) : ascii :=
  let n := nat_of_ascii c in
  if ((65 <=? n) && (n <=? 90))%nat then ascii_of_nat (n + 32) else c.

Fixpoint runs (cur s : string) : list string :=
  match s with
  | EmptyString => [cur]
  | String c r =>
      if is_alnum c then runs (cur ++ String (lower c) EmptyString)%string r
      else cur :: runs EmptyString r
  end.

Definition stop_words : list string :=
  ["and"; "the"; "of"; "with"; "for"; "to"; "in"; "is"; "an"].

Definition tokenize (s : string) : list string :=
  filter (fun t => (2 <=? String.length t)%nat
                   && negb (existsb (String.eqb t) stop_words))
         (runs EmptyString s).

Definition counts (vocabulary : list string) (doc : string) : list Q :=
  map (fun t => inject_Z (Z.of_nat (count_occ string_dec (tokenize doc) t)))
      vocabulary.

Definition dot (u v : list Q) : Q :=
  fold_right Qplus 0%Q (map (fun p => (fst p * snd p)%Q) (combine u v)).

Definition cos2 (u v : list Q) : Q :=
  let d := (dot u u * dot v v)%Q in
  if Qeq_bool d 0 then 0%Q else Qred (dot u v * dot u v / d)%Q.

Fixpoint insert_by (p : Q * nat) (l : list (Q * nat)) : list (Q * nat) :=
  match l with
  | [] => [p]
  | q :: r => if Qle_bool (fst p) (fst q) then p :: l else q :: insert_by p r
  end.

(** The order [insert_by] maintains: by value, and by index among equal
    values. *)
Definition before (p q : Q * nat) : Prop :=
  (fst p <= fst q)%Q /\ ((fst p == fst q)%Q -> snd p < snd q).

Definition ref_argsort (a : list Q) : list nat :=
  map snd (fold_right insert_by [] (combine a (seq 0 (List.length a)))).

Inductive blob : Type :=
| Pickled (v : option (list string))
| Json (d : list DocumentRecord)
| Npy (m : list (list Q))
| NpyPickled (m : list (list Q)).

Definition ref_fit_transform (v : option (list string)) (documents : list string)
  : Result (list (list Q)) * option (list string) :=
  let vocabulary := nodup string_dec (flat_map tokenize documents) in
  match vocabulary with
  | [] => (Raise ValueError, v)
  | _ :: _ => (Ok (map (counts vocabulary) documents), Some vocabulary)
  end.

Definition ref_transform (v : option (list string)) (raw : list string)
  : Result (list Q) :=
  match v with
  | None => Raise NotFittedError
  | Some vocabulary => Ok (counts vocabulary (String.concat " " raw))
  end.

Definition ref_cosine_similarity (q : list Q) (m : list (list Q))
  : Result (list Q) :=
  if forallb (fun row => (List.length row =? List.length q)%nat) m
  then Ok (map (cos2 q) m)
  else Raise ValueError.

#[export] Instance externals : Externals := {|
  Vectorizer := option (list string);
  Matrix := list (list Q);
  QueryVector := list Q;
  Bytes := blob;
  TfidfVectorizer := None;
  fit_transform := ref_fit_transform;
  transform := ref_transform;
  cosine_similarity := ref_cosine_similarity;
  argsort := ref_argsort;
  shape0 := @List.length (list Q);
  pickle_dump := Pickled;
  pickle_load := fun b => match b with Pickled v => Ok v | _ => Raise UnpicklingError end;
  json_dump := Json;
  json_load := fun b => match b with Json d => Ok d | _ => Raise JSONDecodeError end;
  np_save := NpyPickled;
  np_load := fun b => match b with Npy m => Ok m | _ => Raise ValueError end
|}.

(** An empty [DB_DIR] and the world before [__init__]. *)
Definition no_db : Db := mkDb Missing Missing Missing.

Definition boot (d : Db) : World := mkWorld (mkStore None [] None) d [].

(** A corpus directory given by its files; any other path does not exist. *)
Fixpoint lookup (files : list (string * Result string)) (path : string)
  : Result string :=
  match files with
  | [] => Raise FileNotFoundError
  | (n, r) :: rest => if String.eqb n path then r else lookup rest path
  end.

Definition corpus (files : list (string * Result string))
    (faults : Artifact -> WriteFault) : Env :=
  mkEnv "docs/clean" (map fst files)
        (lookup (map (fun f => (PyStr.path_join "docs/clean" (fst f), snd f)) files))
        faults.

Definition no_fault : Artifact -> WriteFault := fun _ => WriteOk.

(** The world a method leaves, and what it returns. *)
Definition after {A} (c : M A) (w : World) : World := snd (c w).
Definition returned {A} (c : M A) (w : World) : Result A := fst (c w).

(** *** Worlds the model is run on *)

(** Two chunks with the same text, a third one, a file the pattern does not
    match, an unreadable chunk and a blank one. *)
Definition clinic : Env :=
  corpus [("me_chunk_a.txt", Ok "  fever and cough ");
          ("me_chunk_b.txt", Ok "fever and cough");
          ("me_chunk_c.txt", Ok "chest pain");
          ("notes.txt", Ok "not a chunk");
          ("me_chunk_d.txt", Raise OSError);
          ("me_chunk_e.txt", Ok "   ")]
         no_fault.

(** A directory with nothing usable: a blank chunk and an unreadable one. *)
Definition barren : Env :=
  corpus [("me_chunk_x.txt", Ok "  "); ("me_chunk_y.txt", Raise OSError)]
         no_fault.

(** The corpus of [clinic] on a disk that refuses to open the matrix file
    for writing. *)
Definition clinic_matrix_readonly : Env :=
  corpus [("me_chunk_a.txt", Ok "  fever and cough ");
          ("me_chunk_b.txt", Ok "fever and cough");
          ("me_chunk_c.txt", Ok "chest pain")]
         (fun a => match a with VectorsNpy => OpenFails OSError | _ => WriteOk end).

(** A new store on an empty [DB_DIR]. *)
Definition fresh : World := after init (boot no_db).

(** The store after indexing [clinic]. *)
Definition indexed : World := after (load_documents clinic false) fresh.

(** Files that were not written by one save: the records of two chunks
    next to a plain array of one row. *)
Definition unmatched_files : Db :=
  mkDb (Written (Pickled (Some ["fever"; "cough"])))
       (Written (Json [mkDocument "me_chunk_a" "fever and cough"
                         (mkMetadata "docs/clean/me_chunk_a.txt");
                       mkDocument "me_chunk_b" "fever and cough"
                         (mkMetadata "docs/clean/me_chunk_b.txt")]))
       (Written (Npy [[1%Q; 1%Q]])).

End Ref.


(** ** The rest of the module *)

(** [CHROMA_COLLECTION_NAME] of [src/config.py]. *)
Definition CHROMA_COLLECTION_NAME : string := "medical_knowledge".

(** The dictionary [get_status] returns. *)
Record Status : Type := mkStatus {
  collection_name : string;
  document_count : nat;
  embedding_model : string
}.

(** The file names [__init__] builds:
    [f"{self.collection_name}_vectorizer.pkl"] and the two others. *)
Definition artifact_name (collection : string) (a : Artifact) : string :=
  (collection
   ++ match a with
      | VectorizerPkl => "_vectorizer.pkl"
      | DocumentsJson => "_documents.json"
      | VectorsNpy => "_vectors.npy"
      end)%string.

(** [os.path.join(DB_DIR, ...)] of [__init__]. *)
Definition artifact_path (DB_DIR collection : string) (a : Artifact) : string :=
  PyStr.path_join DB_DIR (artifact_name collection a).

(** A text of whitespace only (or empty). *)
Fixpoint blank (s : string) : bool :=
  match s with
  | EmptyString => true
  | String c r => PyStr.isspace c && blank r
  end.

(** The text does not start with whitespace. *)
Definition no_leading_space (s : string) : Prop :=
  match s with
  | EmptyString => True
  | String c _ => PyStr.isspace c = false
  end.

(** The character [c] does not occur in [s]. *)
Fixpoint lacks (c : ascii) (s : string) : bool :=
  match s with
  | EmptyString => true
  | String d r => negb (Ascii.eqb d c) && lacks c r
  end.

(** No character of [s] is special to [glob]. *)
Definition no_glob_magic (s : string) : bool :=
  lacks "*" s && lacks "?" s && lacks "[" s.

(** A chunk file that can be read and is empty once stripped. *)
Definition blank_file (env : Env) (file_path : string) : bool :=
  match read_text env file_path with
  | Ok text => negb (PyStr.truthy (PyStr.strip text))
  | Raise _ => false
  end.

(** A chunk file that cannot be read. *)
Definition unreadable_file (env : Env) (file_path : string) : bool :=
  match read_text env file_path with
  | Ok _ => false
  | Raise _ => true
  end.

Section Status.

Context {E : Externals}.

(** *** [VectorStore.get_status] *)
Definition get_status (s : Store) : Status :=
  mkStatus CHROMA_COLLECTION_NAME (count s) "scikit-learn TF-IDF".

(** [argsort] returns every index of the array once. *)
Definition argsort_permutes : Prop :=
  forall a : list Q, Permutation (argsort a) (seq 0 (List.length a)).

(** The fit returns one row per document. *)
Definition fit_gives_a_row_per_document : Prop :=
  forall v documents m v',
    fit_transform v documents = (Ok m, v') ->
    shape0 m = List.length documents.

End Status.

(** *** More worlds the model is run on *)

Module Cases.

Import Ref.

(** A directory whose only chunk holds stop words. *)
Definition stop_words_only : Env :=
  corpus [("me_chunk_s.txt", Ok "the and of")] no_fault.

(** The corpus of [clinic] on a disk where dumping the records fails. *)
Definition records_dump_fails : Env :=
  corpus [("me_chunk_a.txt", Ok "  fever and cough ");
          ("me_chunk_b.txt", Ok "fever and cough");
          ("me_chunk_c.txt", Ok "chest pain")]
         (fun a => match a with DocumentsJson => DumpFails OSError | _ => WriteOk end).

(** The index of [indexed] with the records after the first one lost. *)
Definition lopsided : World :=
  mkWorld (mkStore (vectorizer (self indexed))
                   (firstn 1 (document_data (self indexed)))
                   (vectors (self indexed)))
          (db indexed) [].

End Cases.

(** * Properties *)

(** ** Lists *)

Lemma StronglySorted_skipn {A} (R : A -> A -> Prop) (n : nat) (l : list A) :
  StronglySorted R l -> StronglySorted R (skipn n l).
Proof.
  revert l; induction n as [|n IH]; intros l H; [exact H|].
  destruct l as [|a l]; [constructor|].
  apply StronglySorted_inv in H. simpl. apply IH, H.
Qed.

Lemma StronglySorted_snoc {A} (R : A -> A -> Prop) (l : list A) (a : A) :
  StronglySorted R l -> Forall (fun x => R x a) l -> StronglySorted R (l ++ [a]).
Proof.
  induction l as [|b l IH]; intros Hs Hf; simpl.
  - repeat constructor.
  - apply StronglySorted_inv in Hs. destruct Hs as [Hs Hb].
    inversion Hf; subst. constructor; [auto|].
    apply Forall_app. split; [exact Hb|repeat constructor; assumption].
Qed.

Lemma StronglySorted_rev_flip {A} (R : A -> A -> Prop) (l : list A) :
  StronglySorted R l -> StronglySorted (fun x y => R y x) (rev l).
Proof.
  induction 1 as [|a l Hs IH Ha]; simpl; [constructor|].
  apply StronglySorted_snoc; [exact IH|].
  apply Forall_rev. exact Ha.
Qed.

Lemma StronglySorted_filter {A} (R : A -> A -> Prop) (f : A -> bool) (l : list A) :
  StronglySorted R l -> StronglySorted R (filter f l).
Proof.
  induction 1 as [|a l Hs IH Ha]; simpl; [constructor|].
  destruct (f a); [|exact IH].
  constructor; [exact IH|].
  rewrite Forall_forall in *. intros x Hx.
  apply filter_In in Hx. apply Ha, Hx.
Qed.

Lemma StronglySorted_weaken {A} (R S : A -> A -> Prop) (l : list A) :
  (forall x y, In x l -> In y l -> R x y -> S x y) ->
  StronglySorted R l -> StronglySorted S l.
Proof.
  intros HRS H. induction H as [|a l Hs IH Ha]; [constructor|].
  constructor.
  - apply IH. intros x y Hx Hy. apply HRS; right; assumption.
  - rewrite Forall_forall in *. intros x Hx.
    apply HRS; [left; reflexivity|right; exact Hx|apply Ha, Hx].
Qed.

Lemma StronglySorted_nth_error {A} (R : A -> A -> Prop) (l : list A) :
  StronglySorted R l ->
  forall p q x y, p < q -> nth_error l p = Some x -> nth_error l q = Some y -> R x y.
Proof.
  induction 1 as [|a l Hs IH Ha]; intros p q x y Hpq Hp Hq.
  - destruct p; discriminate.
  - destruct q as [|q]; [lia|]. simpl in Hq.
    destruct p as [|p]; simpl in Hp.
    + injection Hp as <-. rewrite Forall_forall in Ha.
      apply Ha. eapply nth_error_In; eassumption.
    + apply (IH p q); [lia|assumption|assumption].
Qed.

Lemma StronglySorted_both {A} (R S : A -> A -> Prop) (l : list A) :
  StronglySorted R l -> StronglySorted S l ->
  StronglySorted (fun x y => R x y /\ S x y) l.
Proof.
  induction 1 as [|a l Hs IH Ha]; intros H2; [constructor|].
  apply StronglySorted_inv in H2. destruct H2 as [H2 Hb].
  constructor; [apply IH, H2|].
  rewrite Forall_forall in *. intros x Hx. split; [apply Ha|apply Hb]; exact Hx.
Qed.

Lemma Forall2_nth_error {A B} (P : A -> B -> Prop) (la : list A) (lb : list B) :
  Forall2 P la lb ->
  forall p a b, nth_error la p = Some a -> nth_error lb p = Some b -> P a b.
Proof.
  induction 1 as [|x y la lb Hxy H IH]; intros p a b Ha Hb.
  - destruct p; discriminate.
  - destruct p as [|p]; simpl in Ha, Hb.
    + injection Ha as <-. injection Hb as <-. exact Hxy.
    + apply (IH p); assumption.
Qed.

Lemma Forall2_In_r {A B} (P : A -> B -> Prop) (la : list A) (lb : list B) :
  Forall2 P la lb -> forall b, In b lb -> exists a, In a la /\ P a b.
Proof.
  induction 1 as [|x y la lb Hxy H IH]; intros b Hb; [destruct Hb|].
  destruct Hb as [<-|Hb].
  - exists x. split; [left; reflexivity|exact Hxy].
  - destruct (IH b Hb) as [a [Ha Hp]]. exists a. split; [right; exact Ha|exact Hp].
Qed.

(** ** The query *)

Section QueryFacts.

Context {E : Externals}.

Lemma Qgtb_lt (x y : Q) : Qgtb x y = true <-> (y < x)%Q.
Proof.
  unfold Qgtb. rewrite negb_true_iff. split; intro H.
  - apply Qnot_le_lt. intro Hle. apply Qle_bool_iff in Hle. congruence.
  - destruct (Qle_bool x y) eqn:Hb; [|reflexivity].
    apply Qle_bool_iff in Hb. exfalso. exact (Qlt_not_le _ _ H Hb).
Qed.

Lemma nth_error_sim_at (sims : list Q) (i : nat) (x : Q) :
  nth_error sims i = Some x -> sim_at sims i = x.
Proof. intro H. unfold sim_at. apply nth_error_nth. exact H. Qed.

Lemma collect_results_spec (sims : list Q) (docs : list DocumentRecord)
    (idxs : list nat) :
  forall acc rs,
    collect_results sims docs idxs acc = Ok rs ->
    exists new,
      rs = acc ++ new
      /\ Forall2 (kept_at docs sims)
           (filter (fun i => Qgtb (sim_at sims i) 0) idxs) new.
Proof.
  induction idxs as [|idx rest IH]; intros acc rs H; simpl in H.
  - injection H as <-. exists []. rewrite app_nil_r. split; [reflexivity|constructor].
  - destruct (nth_error sims idx) as [sim|] eqn:Hsim; [|discriminate].
    pose proof (nth_error_sim_at _ _ _ Hsim) as Hat.
    simpl. rewrite Hat.
    destruct (Qgtb sim 0) eqn:Hpos.
    + destruct (nth_error docs idx) as [doc|] eqn:Hdoc; [|discriminate].
      destruct (IH _ _ H) as [new [-> Hnew]].
      exists (mkResult (content doc) (metadata doc) (id doc) sim :: new).
      split; [rewrite <- app_assoc; reflexivity|].
      constructor; [|exact Hnew].
      repeat split.
      * exists doc. split; [exact Hdoc|reflexivity].
      * simpl. symmetry. exact Hat.
      * simpl. apply Qgtb_lt. exact Hpos.
    + apply IH. exact H.
Qed.

(** [query] returns a list and never raises; it leaves the store and the
    files as they were.  The list is empty, or it is what the result loop
    collected from the similarities of the query. *)
Lemma query_returns (text : string) (n : Z) (w : World) :
  exists rs w',
    query text n w = (Ok rs, w')
    /\ self w' = self w /\ db w' = db w
    /\ (rs = []
        \/ exists m qv sims,
             vectors (self w) = Some m
             /\ transform (vectorizer (self w)) [text] = Ok qv
             /\ cosine_similarity qv m = Ok sims
             /\ collect_results sims (document_data (self w))
                  (top_indices_of sims n) [] = Ok rs).
Proof.
  unfold query, bind, get_self, try_except, lift, logger, ret.
  destruct (document_data (self w)) as [|d0 docs] eqn:Hd.
  { eexists _, _. split; [reflexivity|]. simpl. auto. }
  destruct (vectors (self w)) as [m|] eqn:Hv.
  2:{ eexists _, _. split; [reflexivity|]. simpl. auto. }
  destruct (transform (vectorizer (self w)) [text]) as [qv|e] eqn:Ht.
  2:{ eexists _, _. split; [reflexivity|]. simpl. auto. }
  destruct (cosine_similarity qv m) as [sims|e] eqn:Hc.
  2:{ eexists _, _. split; [reflexivity|]. simpl. auto. }
  destruct (collect_results sims (d0 :: docs) (top_indices_of sims n) [])
    as [rs|e] eqn:Hr.
  2:{ eexists _, _. split; [reflexivity|]. simpl. auto. }
  exists rs, w. split; [reflexivity|].
  repeat split. right. exists m, qv, sims. auto.
Qed.

(** The results are the documents at some positions of [document_data],
    each with its similarity, all positive; the positions are the top
    indices whose similarity is positive, in that order. *)
Lemma query_ranked (text : string) (n : Z) (w : World) :
  exists rs w',
    query text n w = (Ok rs, w')
    /\ self w' = self w /\ db w' = db w
    /\ exists sims,
         Forall2 (kept_at (document_data (self w)) sims)
           (filter (fun i => Qgtb (sim_at sims i) 0) (top_indices_of sims n)) rs
         \/ rs = [].
Proof.
  destruct (query_returns text n w) as [rs [w' [Hq [Hs [Hd Hrs]]]]].
  exists rs, w'. repeat (split; [assumption|]).
  destruct Hrs as [-> | [m [qv [sims [_ [_ [_ Hc]]]]]]].
  - exists []. right. reflexivity.
  - exists sims. left.
    destruct (collect_results_spec _ _ _ _ _ Hc) as [new [-> Hnew]].
    exact Hnew.
Qed.

Lemma top_indices_descending (sims : list Q) (n : Z) (R : nat -> nat -> Prop) :
  StronglySorted R (argsort sims) ->
  StronglySorted (fun i j => R j i)
    (filter (fun i => Qgtb (sim_at sims i) 0) (top_indices_of sims n)).
Proof.
  intro H. apply StronglySorted_filter.
  unfold top_indices_of, PySeq.reversed, PySeq.slice_from.
  apply StronglySorted_rev_flip, StronglySorted_skipn, H.
Qed.

End QueryFacts.

Section QueryClaims.

Context {E : Externals}.

Lemma sim_at_nonpositive (sims : list Q) (i : nat) :
  Forall (fun x => (x <= 0)%Q) sims -> Qgtb (sim_at sims i) 0 = false.
Proof.
  intro H. unfold sim_at.
  assert (Hle : (nth i sims 0 <= 0)%Q).
  { destruct (nth_in_or_default i sims 0%Q) as [Hin | ->].
    - rewrite Forall_forall in H. apply H, Hin.
    - apply Qle_refl. }
  destruct (Qgtb (nth i sims 0%Q) 0) eqn:Hb; [|reflexivity].
  apply Qgtb_lt in Hb. exfalso. exact (Qlt_not_le _ _ Hb Hle).
Qed.

Lemma filter_none {A} (f : A -> bool) (l : list A) :
  (forall x, f x = false) -> filter f l = [].
Proof.
  intro H. induction l as [|a l IH]; [reflexivity|].
  simpl. rewrite H. exact IH.
Qed.

(** C4. Every result [query] returns has a strictly positive similarity,
    whatever the number of results asked for, and [query] always returns;
    when no document has a positive similarity to the query, as for a query
    outside the vocabulary, the result is empty. *)
Theorem query_only_positive (text : string) (n : Z) (w : World) :
  exists rs w',
    query text n w = (Ok rs, w')
    /\ Forall (fun r => (0 < similarity r)%Q) rs
    /\ (forall m qv sims,
          vectors (self w) = Some m ->
          transform (vectorizer (self w)) [text] = Ok qv ->
          cosine_similarity qv m = Ok sims ->
          Forall (fun x => (x <= 0)%Q) sims ->
          rs = []).
Proof.
  destruct (query_returns text n w) as [rs [w' [Hq [_ [_ Hrs]]]]].
  exists rs, w'. split; [exact Hq|].
  destruct Hrs as [-> | [m [qv [sims [Hv [Ht [Hc Hr]]]]]]].
  - split; [constructor|reflexivity].
  - destruct (collect_results_spec _ _ _ _ _ Hr) as [new [-> Hnew]]. simpl.
    split.
    + rewrite Forall_forall. intros r Hin.
      destruct (Forall2_In_r _ _ _ Hnew r Hin) as [i [_ [_ [_ Hpos]]]].
      exact Hpos.
    + intros m' qv' sims' Hv' Ht' Hc' Hall.
      rewrite Hv in Hv'. injection Hv' as <-.
      rewrite Ht in Ht'. injection Ht' as <-.
      rewrite Hc in Hc'. injection Hc' as <-.
      rewrite filter_none in Hnew by (intro i; apply sim_at_nonpositive, Hall).
      inversion Hnew. reflexivity.
Qed.

(** C7. The similarities of consecutive results do not increase:
    [similarity[i] >= similarity[i+1]] at every rank [i], for an [argsort]
    that lists the values in ascending order. *)
Theorem query_monotonic_ranking (text : string) (n : Z) (w : World) :
  argsort_sorts ->
  exists rs w',
    query text n w = (Ok rs, w')
    /\ forall i r r',
         nth_error rs i = Some r -> nth_error rs (S i) = Some r' ->
         (similarity r' <= similarity r)%Q.
Proof.
  intro Hsort.
  destruct (query_ranked text n w) as [rs [w' [Hq [_ [_ [sims Hrs]]]]]].
  exists rs, w'. split; [exact Hq|].
  intros i r r' Hi Hi'.
  destruct Hrs as [Hk| ->]; [|destruct i; discriminate].
  pose proof (top_indices_descending sims n _ (Hsort sims)) as Hdesc.
  pose proof (Forall2_length Hk) as Hlen.
  destruct (nth_error (filter (fun i0 => Qgtb (sim_at sims i0) 0)
                         (top_indices_of sims n)) i) as [a|] eqn:Ha.
  2:{ apply nth_error_None in Ha. rewrite Hlen in Ha.
      apply nth_error_None in Ha. congruence. }
  destruct (nth_error (filter (fun i0 => Qgtb (sim_at sims i0) 0)
                         (top_indices_of sims n)) (S i)) as [b|] eqn:Hb.
  2:{ apply nth_error_None in Hb. rewrite Hlen in Hb.
      apply nth_error_None in Hb. congruence. }
  destruct (Forall2_nth_error _ _ _ Hk _ _ _ Ha Hi) as [_ [-> _]].
  destruct (Forall2_nth_error _ _ _ Hk _ _ _ Hb Hi') as [_ [-> _]].
  apply (StronglySorted_nth_error _ _ Hdesc i (S i) a b); auto.
Qed.

Lemma listed_before_suffix {A} (l : list A) :
  forall pre, StronglySorted (listed_before (pre ++ l)) l.
Proof.
  induction l as [|x l IH]; intro pre; constructor.
  - specialize (IH (pre ++ [x])). rewrite <- app_assoc in IH. exact IH.
  - rewrite Forall_forall. intros y Hy.
    apply In_nth_error in Hy. destruct Hy as [k Hk].
    exists (List.length pre), (List.length pre + S k).
    split; [lia|]. split.
    + rewrite nth_error_app2 by lia. rewrite Nat.sub_diag. reflexivity.
    + rewrite nth_error_app2 by lia.
      replace (List.length pre + S k - List.length pre) with (S k) by lia.
      exact Hk.
Qed.

Lemma listed_before_self {A} (l : list A) : StronglySorted (listed_before l) l.
Proof. exact (listed_before_suffix l []). Qed.

(** C3, amended. The results are in descending order of similarity, and any
    two results, so any two of equal similarity, come in the reverse of the
    order in which [argsort] lists the indices of their documents: the
    top indices are the [argsort] of the similarities read backwards. *)
Theorem query_order_and_ties (text : string) (n : Z) (w : World) :
  argsort_sorts ->
  exists rs w',
    query text n w = (Ok rs, w')
    /\ (rs = []
        \/ exists m qv sims idxs,
             vectors (self w) = Some m
             /\ transform (vectorizer (self w)) [text] = Ok qv
             /\ cosine_similarity qv m = Ok sims
             /\ Forall2 (kept_at (document_data (self w)) sims) idxs rs
             /\ forall p q ip iq rp rq,
                  p < q ->
                  nth_error idxs p = Some ip -> nth_error idxs q = Some iq ->
                  nth_error rs p = Some rp -> nth_error rs q = Some rq ->
                  (similarity rq <= similarity rp)%Q
                  /\ listed_before (argsort sims) iq ip).
Proof.
  intro Hsort.
  destruct (query_returns text n w) as [rs [w' [Hq [_ [_ Hrs]]]]].
  exists rs, w'. split; [exact Hq|].
  destruct Hrs as [-> | [m [qv [sims [Hv [Ht [Hc Hr]]]]]]]; [left; reflexivity|].
  right.
  destruct (collect_results_spec _ _ _ _ _ Hr) as [new [Heq Hk]].
  simpl in Heq. subst new.
  exists m, qv, sims,
    (filter (fun i => Qgtb (sim_at sims i) 0) (top_indices_of sims n)).
  repeat (split; [assumption|]).
  intros p q ip iq rp rq Hpq Hip Hiq Hrp Hrq.
  pose proof (top_indices_descending sims n _
                (StronglySorted_both _ _ _ (Hsort sims)
                   (listed_before_self (argsort sims)))) as Hdesc.
  destruct (Forall2_nth_error _ _ _ Hk _ _ _ Hip Hrp) as [_ [-> _]].
  destruct (Forall2_nth_error _ _ _ Hk _ _ _ Hiq Hrq) as [_ [-> _]].
  exact (StronglySorted_nth_error _ _ Hdesc p q ip iq Hpq Hip Hiq).
Qed.

End QueryClaims.

(** ** Persistence *)

Section PersistenceFacts.

Context {E : Externals}.

Ltac run :=
  unfold init, load_model, save_model, try_except, bind, ret, lift, get_self,
    set_vectorizer, set_document_data, set_vectors, logger, read_artifact,
    write_artifact, path_exists, db_get, db_put; simpl.

Lemma stored_functional (d : Db) v docs m v' docs' m' :
  stored d v docs m -> stored d v' docs' m' ->
  v = v' /\ docs = docs' /\ m = m'.
Proof.
  intros [bv [bd [bm [-> [Hv [Hd Hm]]]]]] [bv' [bd' [bm' [Heq [Hv' [Hd' Hm']]]]]].
  injection Heq as <- <- <-.
  rewrite Hv in Hv'. rewrite Hd in Hd'. rewrite Hm in Hm'.
  injection Hv' as <-. injection Hd' as <-. injection Hm' as <-. auto.
Qed.

Lemma stored_usable (d : Db) v docs m :
  stored d v docs m ->
  unusable pickle_load (vectorizer_file d)
  \/ unusable json_load (documents_file d)
  \/ unusable np_load (vectors_file d) ->
  False.
Proof.
  intros [bv [bd [bm [-> [Hv [Hd Hm]]]]]]. simpl.
  unfold unusable.
  intros [H|[H|H]];
    destruct H as [H|[H|[b [e [H H']]]]]; try discriminate;
    injection H as <-; congruence.
Qed.

(** [__init__] always returns; it does not touch the files.  Either the
    three artifacts are there and deserialise, and the store holds what
    they deserialise to, or one of them cannot be loaded and the store is
    the empty one. *)
Lemma init_spec (w : World) :
  exists w',
    init w = (Ok tt, w') /\ db w' = db w
    /\ ((exists v docs m,
           stored (db w) v docs m /\ self w' = mkStore v docs (Some m))
        \/ ((unusable pickle_load (vectorizer_file (db w))
             \/ unusable json_load (documents_file (db w))
             \/ unusable np_load (vectors_file (db w)))
            /\ self w' = empty_store)).
Proof.
  destruct w as [s [fv fd fm] l]. unfold unusable, stored. run.
  destruct fv as [| |bv], fd as [| |bd], fm as [| |bm]; simpl;
    repeat match goal with
      | |- context [pickle_load ?b] => destruct (pickle_load b) eqn:?; simpl
      | |- context [json_load ?b] => destruct (json_load b) eqn:?; simpl
      | |- context [np_load ?b] => destruct (np_load b) eqn:?; simpl
      end;
    (eexists; split; [reflexivity|]; split; [reflexivity|]);
    first [ right; split; [|reflexivity]; solve [eauto 10]
          | left; do 3 eexists; split; [|reflexivity]; do 3 eexists; eauto ].
Qed.

(** What [query] returns depends on the store only. *)
Lemma query_reads_self (text : string) (n : Z) (w1 w2 : World) :
  self w1 = self w2 -> fst (query text n w1) = fst (query text n w2).
Proof.
  intro H. unfold query, bind, get_self, try_except, lift, logger, ret.
  rewrite H.
  destruct (document_data (self w2)); [reflexivity|].
  destruct (vectors (self w2)); [|reflexivity].
  destruct (transform (vectorizer (self w2)) [text]); [|reflexivity].
  destruct (cosine_similarity _ _); [|reflexivity].
  destruct (collect_results _ _ _ _); reflexivity.
Qed.

Lemma query_empty_store (text : string) (n : Z) (d : Db) (l : list LogEntry) :
  query text n (mkWorld empty_store d l)
  = (Ok [], mkWorld empty_store d (l ++ [(WARNING, StoreIsEmpty)])).
Proof. reflexivity. Qed.

(** [save_model] always returns and leaves the store as it was (so also
    the log's last entry tells how it went). *)
Lemma save_model_spec (env : Env) (w : World) :
  exists w',
    save_model env w = (Ok tt, w') /\ self w' = self w
    /\ ((write_fault env VectorizerPkl = WriteOk
         /\ write_fault env DocumentsJson = WriteOk
         /\ (vectors (self w) = None \/ write_fault env VectorsNpy = WriteOk)
         /\ log w' = log w ++ [(INFO, SavedToDisk (count (self w)))]
         /\ vectorizer_file (db w') = Written (pickle_dump (vectorizer (self w)))
         /\ documents_file (db w') = Written (json_dump (document_data (self w)))
         /\ vectors_file (db w')
            = match vectors (self w) with
              | Some m => Written (np_save m)
              | None => vectors_file (db w)
              end)
        \/ exists a e,
             (write_fault env a = OpenFails e \/ write_fault env a = DumpFails e)
             /\ log w' = log w ++ [(ERROR, ErrorSavingModel e)]).
Proof.
  destruct w as [[v docs m] [fv fd fm] l]. unfold count. run.
  destruct (write_fault env VectorizerPkl) eqn:H1; simpl;
    [|eexists; split; [reflexivity|]; split; [reflexivity|]; right; simpl;
      exists VectorizerPkl; eauto ..].
  destruct (write_fault env DocumentsJson) eqn:H2; simpl;
    [|eexists; split; [reflexivity|]; split; [reflexivity|]; right; simpl;
      exists DocumentsJson; eauto ..].
  destruct m as [m|]; simpl.
  - destruct (write_fault env VectorsNpy) eqn:H3; simpl;
      [|eexists; split; [reflexivity|]; split; [reflexivity|]; right; simpl;
        exists VectorsNpy; eauto ..].
    eexists; split; [reflexivity|]; split; [reflexivity|]. left.
    simpl. repeat split; auto.
  - eexists; split; [reflexivity|]; split; [reflexivity|]. left.
    simpl. repeat split; auto.
Qed.

End PersistenceFacts.

Section PersistenceClaims.

Context {E : Externals}.

(** C5. Constructing the store never raises.  The load succeeds only when
    the three artifacts exist and deserialise, and the store then holds
    what they deserialise to; when one of them is absent, cut short or
    refused by its deserialiser the store is the empty, untrained one.
    Querying that empty store with any text returns the empty list. *)
Theorem init_loads_or_falls_back (w : World) :
  exists w',
    init w = (Ok tt, w')
    /\ ((exists v docs m,
           stored (db w) v docs m /\ self w' = mkStore v docs (Some m))
        \/ ((unusable pickle_load (vectorizer_file (db w))
             \/ unusable json_load (documents_file (db w))
             \/ unusable np_load (vectors_file (db w)))
            /\ self w' = empty_store))
    /\ forall text n d l,
         query text n (mkWorld empty_store d l)
         = (Ok [], mkWorld empty_store d (l ++ [(WARNING, StoreIsEmpty)])).
Proof.
  destruct (init_spec w) as [w' [Hi [_ H]]].
  exists w'. split; [exact Hi|]. split; [exact H|].
  intros. apply query_empty_store.
Qed.

(** C2, amended. Loading installs the document records and the matrix as
    the two artifacts deserialise, without comparing them: the loaded
    store is consistent exactly when the artifacts on disk are.  Only an
    artifact that is absent or does not deserialise leads to the empty
    store. *)
Theorem init_consistent_iff_artifacts (w : World) :
  exists w',
    init w = (Ok tt, w')
    /\ ((exists v docs m,
           stored (db w) v docs m /\ self w' = mkStore v docs (Some m))
        \/ ((unusable pickle_load (vectorizer_file (db w))
             \/ unusable json_load (documents_file (db w))
             \/ unusable np_load (vectors_file (db w)))
            /\ self w' = empty_store))
    /\ (consistent (self w')
        <-> forall v docs m,
              stored (db w) v docs m -> shape0 m = List.length docs).
Proof.
  destruct (init_spec w) as [w' [Hi [_ H]]].
  exists w'. split; [exact Hi|]. split; [exact H|].
  destruct H as [[v [docs [m [Hst ->]]]] | [Hun ->]]; unfold consistent; simpl.
  - split.
    + intros Hc v' docs' m' Hst'.
      destruct (stored_functional _ _ _ _ _ _ _ Hst Hst') as [_ [<- <-]].
      exact Hc.
    + intro Hall. apply (Hall v docs m Hst).
  - split; [|reflexivity].
    intros _ v docs m Hst. exfalso. exact (stored_usable _ _ _ _ Hst Hun).
Qed.

(** C6, amended. [save_model] writes the model blob and the document
    records, and the matrix when the store has one; it never raises; when
    it does not log the save, a write has failed and its error is logged.
    In either case the store is unchanged and answers every query as
    before. *)
Theorem save_model_best_effort (env : Env) (w : World) :
  exists w',
    save_model env w = (Ok tt, w')
    /\ self w' = self w
    /\ (forall text n, fst (query text n w') = fst (query text n w))
    /\ ((log w' = log w ++ [(INFO, SavedToDisk (count (self w)))]
         /\ vectorizer_file (db w') = Written (pickle_dump (vectorizer (self w)))
         /\ documents_file (db w') = Written (json_dump (document_data (self w)))
         /\ vectors_file (db w')
            = match vectors (self w) with
              | Some m => Written (np_save m)
              | None => vectors_file (db w)
              end)
        \/ exists a e,
             (write_fault env a = OpenFails e \/ write_fault env a = DumpFails e)
             /\ log w' = log w ++ [(ERROR, ErrorSavingModel e)]).
Proof.
  destruct (save_model_spec env w) as [w' [Hs [Hself H]]].
  exists w'. split; [exact Hs|]. split; [exact Hself|]. split.
  - intros. apply query_reads_self, Hself.
  - destruct H as [[_ [_ [_ H]]]|H]; [left; exact H|right; exact H].
Qed.

End PersistenceClaims.

(** ** The corpus scan *)

Section ScanFacts.

Context {E : Externals}.

Lemma read_chunks_spec (env : Env) (files : list string) :
  forall docs recs w,
    read_chunks env files docs recs w
    = (Ok (docs ++ map content (flat_map (record_for env) files),
           recs ++ flat_map (record_for env) files),
       mkWorld (self w) (db w)
               (log w ++ flat_map (read_error_for env) files)).
Proof.
  induction files as [|f files IH]; intros docs recs w.
  - simpl. unfold ret. rewrite !app_nil_r. destruct w; reflexivity.
  - simpl. unfold bind at 1. unfold try_except, bind, lift, logger, ret.
    unfold record_for at 1 3, read_error_for at 1.
    destruct (read_text env f) as [text|e]; simpl.
    + destruct (PyStr.truthy (PyStr.strip text)); simpl; rewrite IH; simpl.
      * rewrite <- !app_assoc. reflexivity.
      * reflexivity.
    + rewrite IH. simpl. rewrite <- app_assoc. reflexivity.
Qed.

Lemma truthy_nonempty (s : string) : PyStr.truthy s = true <-> s <> EmptyString.
Proof. destruct s; simpl; split; intro H; congruence. Qed.

Lemma in_record_for (env : Env) (path : string) (r : DocumentRecord) :
  In r (record_for env path)
  <-> exists text,
        read_text env path = Ok text
        /\ PyStr.strip text <> EmptyString
        /\ r = mkDocument (file_id_of path) (PyStr.strip text) (mkMetadata path).
Proof.
  unfold record_for. destruct (read_text env path) as [text|e].
  - destruct (PyStr.truthy (PyStr.strip text)) eqn:Ht.
    + split.
      * intros [<-|[]]. exists text. apply truthy_nonempty in Ht. auto.
      * intros [t [Heq [_ ->]]]. injection Heq as <-. left. reflexivity.
    + split; [intros []|].
      intros [t [Heq [Hne _]]]. injection Heq as <-.
      apply truthy_nonempty in Hne. congruence.
  - split; [intros []|]. intros [t [Heq _]]. discriminate.
Qed.

Lemma in_read_error_for (env : Env) (path : string) (entry : LogEntry) :
  In entry (read_error_for env path)
  <-> exists e, read_text env path = Raise e
                /\ entry = (ERROR, ErrorReadingFile path e).
Proof.
  unfold read_error_for. destruct (read_text env path) as [text|e].
  - split; [intros []|]. intros [e [Heq _]]. discriminate.
  - split.
    + intros [<-|[]]. exists e. auto.
    + intros [e' [Heq ->]]. injection Heq as <-. left. reflexivity.
Qed.

Lemma in_glob_chunks (env : Env) (path : string) :
  In path (glob_chunks env)
  <-> exists name,
        In name (listdir env)
        /\ PyStr.fnmatch_star "me_chunk_" ".txt" name = true
        /\ path = PyStr.path_join (DOCS_DIR env) name.
Proof.
  unfold glob_chunks. rewrite in_map_iff. split.
  - intros [name [<- Hin]]. apply filter_In in Hin. exists name. tauto.
  - intros [name [Hin [Hm ->]]]. exists name. split; [reflexivity|].
    apply filter_In. auto.
Qed.

(** [load_documents] when the scan gives no usable document. *)
Lemma load_documents_nothing_usable (env : Env) (force : bool) (w : World) :
  flat_map (record_for env) (glob_chunks env) = [] ->
  force = true \/ count (self w) = 0 ->
  load_documents env force w
  = (Ok tt,
     mkWorld (mkStore (vectorizer (self w)) []
                      (if force then None else vectors (self w)))
             (db w)
             (log w
                ++ (if force then [(INFO, ForceReloading)] else [])
                ++ [(INFO, FoundChunkFiles (List.length (glob_chunks env)))]
                ++ flat_map (read_error_for env) (glob_chunks env)
                ++ [(WARNING, NoDocumentsLoaded)])).
Proof.
  intros Hnone Hscan.
  unfold load_documents. unfold bind at 1. unfold get_self.
  destruct force; simpl.
  - unfold bind, logger, set_document_data, set_vectors. simpl.
    rewrite read_chunks_spec. simpl. rewrite Hnone. simpl.
    rewrite <- !app_assoc. reflexivity.
  - destruct Hscan as [Hf|Hc]; [discriminate|].
    rewrite Hc. simpl.
    unfold bind, logger, ret. simpl.
    rewrite read_chunks_spec. simpl. rewrite Hnone. simpl.
    unfold count in Hc. apply length_zero_iff_nil in Hc.
    destruct w as [[v docs m] d l]. simpl in *. subst docs.
    rewrite <- !app_assoc. reflexivity.
Qed.

(** [load_documents] when the scan gives documents and the fit succeeds. *)
Lemma load_documents_fitted (env : Env) (force : bool) (w : World)
    (m : Matrix) (v' : Vectorizer) :
  flat_map (record_for env) (glob_chunks env) <> [] ->
  force = true \/ count (self w) = 0 ->
  fit_transform (vectorizer (self w))
    (map content (flat_map (record_for env) (glob_chunks env))) = (Ok m, v') ->
  exists w',
    load_documents env force w = (Ok tt, w')
    /\ self w'
       = mkStore v' (flat_map (record_for env) (glob_chunks env)) (Some m).
Proof.
  intros Hsome Hscan Hfit.
  assert (Hgo : negb force && (0 <? count (self w))%nat = false).
  { destruct Hscan as [->| ->]; [reflexivity|]. apply andb_false_r. }
  unfold load_documents, bind, get_self, logger, set_vectorizer,
    set_document_data, set_vectors, lift, ret.
  rewrite Hgo.
  destruct force; simpl; rewrite read_chunks_spec; simpl;
    (destruct (flat_map (record_for env) (glob_chunks env)) as [|r recs] eqn:Hrecs;
     [congruence|]);
    simpl in *; rewrite Hfit; simpl;
    match goal with |- context [save_model env ?w0] =>
      destruct (save_model_spec env w0) as [w1 [Hs [Hself _]]]; rewrite Hs
    end;
    (eexists; split; [reflexivity|]; simpl; exact Hself).
Qed.

(** The store [load_documents] builds is consistent when the fit returns
    one row per document. *)
Lemma load_documents_consistent (env : Env) (force : bool) (w : World)
    (m : Matrix) (v' : Vectorizer) :
  flat_map (record_for env) (glob_chunks env) <> [] ->
  force = true \/ count (self w) = 0 ->
  fit_transform (vectorizer (self w))
    (map content (flat_map (record_for env) (glob_chunks env))) = (Ok m, v') ->
  shape0 m
  = List.length (map content (flat_map (record_for env) (glob_chunks env))) ->
  exists w',
    load_documents env force w = (Ok tt, w') /\ consistent (self w').
Proof.
  intros Hsome Hscan Hfit Hrows.
  destruct (load_documents_fitted env force w m v' Hsome Hscan Hfit)
    as [w' [Hl Hs]].
  exists w'. split; [exact Hl|].
  unfold consistent. rewrite Hs. simpl. rewrite Hrows. apply length_map.
Qed.

End ScanFacts.

Section ScanClaims.

Context {E : Externals}.

Lemma nothing_usable_no_record (env : Env) :
  nothing_usable env -> flat_map (record_for env) (glob_chunks env) = [].
Proof.
  unfold nothing_usable. generalize (glob_chunks env) as files.
  induction files as [|f files IH]; intro H; [reflexivity|].
  simpl. rewrite IH by (intros p Hp; apply H; right; exact Hp).
  rewrite app_nil_r. specialize (H f (or_introl eq_refl)).
  unfold record_for. destruct (read_text env f) as [text|e]; [|reflexivity].
  rewrite H. reflexivity.
Qed.

(** C8. With [force_reload] false and a populated index, [load_documents]
    does nothing but log that it skips: the document records, the matrix
    and the fitted model are unchanged, the corpus is not scanned (no file
    count or read error is logged), nothing is fitted and no artifact is
    written. *)
Theorem load_documents_noop_when_populated (env : Env) (w : World) :
  0 < count (self w) ->
  load_documents env false w
  = (Ok tt,
     mkWorld (self w) (db w)
             (log w ++ [(INFO, AlreadyContains (count (self w)))])).
Proof.
  intro H. unfold load_documents, bind, get_self. simpl.
  apply Nat.ltb_lt in H. rewrite H. reflexivity.
Qed.

(** C9. The scan creates a record exactly for the files of the directory
    that match the pattern, can be read and are not empty once stripped, in
    the order of enumeration; a file that cannot be read is logged as an
    error and skipped; the scan never raises and reads every file.  When
    the fit then succeeds these records become the store's
    [document_data]. *)
Theorem scan_keeps_readable_nonempty (env : Env) (w : World) :
  exists recs errors,
    read_chunks env (glob_chunks env) [] [] w
    = (Ok (map content recs, recs), mkWorld (self w) (db w) (log w ++ errors))
    /\ recs = flat_map (record_for env) (glob_chunks env)
    /\ (forall r,
          In r recs
          <-> exists name text,
                In name (listdir env)
                /\ PyStr.fnmatch_star "me_chunk_" ".txt" name = true
                /\ read_text env (PyStr.path_join (DOCS_DIR env) name) = Ok text
                /\ PyStr.strip text <> EmptyString
                /\ r = mkDocument
                         (file_id_of (PyStr.path_join (DOCS_DIR env) name))
                         (PyStr.strip text)
                         (mkMetadata (PyStr.path_join (DOCS_DIR env) name)))
    /\ (forall entry,
          In entry errors
          <-> exists name e,
                In name (listdir env)
                /\ PyStr.fnmatch_star "me_chunk_" ".txt" name = true
                /\ read_text env (PyStr.path_join (DOCS_DIR env) name) = Raise e
                /\ entry = (ERROR,
                            ErrorReadingFile
                              (PyStr.path_join (DOCS_DIR env) name) e))
    /\ (forall force m v',
          force = true \/ count (self w) = 0 ->
          recs <> [] ->
          fit_transform (vectorizer (self w)) (map content recs) = (Ok m, v') ->
          exists w',
            load_documents env force w = (Ok tt, w')
            /\ document_data (self w') = recs).
Proof.
  exists (flat_map (record_for env) (glob_chunks env)),
         (flat_map (read_error_for env) (glob_chunks env)).
  split; [apply read_chunks_spec|]. split; [reflexivity|]. split; [|split].
  - intro r. rewrite in_flat_map. split.
    + intros [path [Hp Hr]]. apply in_glob_chunks in Hp.
      destruct Hp as [name [Hin [Hm ->]]].
      apply in_record_for in Hr. destruct Hr as [text [Hread [Hne ->]]].
      exists name, text. auto.
    + intros [name [text [Hin [Hm [Hread [Hne ->]]]]]].
      exists (PyStr.path_join (DOCS_DIR env) name). split.
      * apply in_glob_chunks. exists name. auto.
      * apply in_record_for. exists text. auto.
  - intro entry. rewrite in_flat_map. split.
    + intros [path [Hp Hr]]. apply in_glob_chunks in Hp.
      destruct Hp as [name [Hin [Hm ->]]].
      apply in_read_error_for in Hr. destruct Hr as [e [Hread ->]].
      exists name, e. auto.
    + intros [name [e [Hin [Hm [Hread ->]]]]].
      exists (PyStr.path_join (DOCS_DIR env) name). split.
      * apply in_glob_chunks. exists name. auto.
      * apply in_read_error_for. exists e. auto.
  - intros force m v' Hscan Hne Hfit.
    destruct (load_documents_fitted env force w m v' Hne Hscan Hfit)
      as [w' [Hl Hs]].
    exists w'. split; [exact Hl|]. rewrite Hs. reflexivity.
Qed.

(** C1, amended. When the scan yields no usable document, [load_documents]
    (on a forced reload, or with no document loaded) does not fit and does
    not fail: it returns normally after logging the warning that no
    documents were loaded.  The vectorizer and the files are as before and
    the store holds no document. *)
Theorem load_documents_empty_corpus (env : Env) (force : bool) (w : World) :
  nothing_usable env ->
  force = true \/ count (self w) = 0 ->
  exists w',
    load_documents env force w = (Ok tt, w')
    /\ vectorizer (self w') = vectorizer (self w)
    /\ count (self w') = 0
    /\ db w' = db w
    /\ exists l, log w' = l ++ [(WARNING, NoDocumentsLoaded)].
Proof.
  intros Hnone Hscan.
  rewrite (load_documents_nothing_usable env force w
             (nothing_usable_no_record env Hnone) Hscan).
  eexists. split; [reflexivity|]. cbn [self db log vectorizer document_data count].
  repeat split.
  exists (log w
            ++ (if force then [(INFO, ForceReloading)] else [])
            ++ [(INFO, FoundChunkFiles (List.length (glob_chunks env)))]
            ++ flat_map (read_error_for env) (glob_chunks env)).
  rewrite <- !app_assoc. reflexivity.
Qed.

Lemma init_reads_files (w0 w0' : World) :
  db w0 = db w0' ->
  fst (init w0) = Ok tt /\ self (snd (init w0)) = self (snd (init w0')).
Proof.
  intro Hdb.
  destruct (init_spec w0) as [w1 [Hi [_ H]]].
  destruct (init_spec w0') as [w1' [Hi' [_ H']]].
  rewrite Hi, Hi'. simpl. split; [reflexivity|].
  rewrite Hdb in H.
  destruct H as [[v [docs [m [Hst ->]]]] | [Hun ->]];
    destruct H' as [[v' [docs' [m' [Hst' ->]]]] | [Hun' ->]].
  - destruct (stored_functional _ _ _ _ _ _ _ Hst Hst') as [<- [<- <-]].
    reflexivity.
  - exfalso. exact (stored_usable _ _ _ _ Hst Hun').
  - exfalso. exact (stored_usable _ _ _ _ Hst' Hun).
  - reflexivity.
Qed.

(** X21. A forced reload that finds no usable document leaves a store with
    no document, for which every query returns the empty list, and leaves
    the files as they were: a store constructed afterwards is the store
    that would have been constructed before the reload. *)
Theorem forced_reload_of_empty_corpus_keeps_disk (env : Env) (w : World) :
  nothing_usable env ->
  exists w',
    load_documents env true w = (Ok tt, w')
    /\ count (self w') = 0
    /\ (forall text n, fst (query text n w') = Ok [])
    /\ db w' = db w
    /\ (forall w0 w0',
          db w0 = db w' -> db w0' = db w ->
          fst (init w0) = Ok tt
          /\ self (snd (init w0)) = self (snd (init w0'))).
Proof.
  intro Hnone.
  rewrite (load_documents_nothing_usable env true w
             (nothing_usable_no_record env Hnone) (or_introl eq_refl)).
  eexists. split; [reflexivity|]. simpl. split; [reflexivity|]. split; [|split].
  - intros. reflexivity.
  - reflexivity.
  - intros w0 w0' Hdb Hdb'. apply init_reads_files. congruence.
Qed.

End ScanClaims.

(** ** The reference implementation meets the contract of [argsort] *)

Section RefArgsort.

Lemma StronglySorted_map {A B} (f : A -> B) (R : B -> B -> Prop) (l : list A) :
  StronglySorted (fun x y => R (f x) (f y)) l -> StronglySorted R (map f l).
Proof.
  induction 1 as [|a l Hs IH Ha]; simpl; constructor; [exact IH|].
  rewrite Forall_forall in *. intros y Hy.
  apply in_map_iff in Hy. destruct Hy as [x [<- Hx]]. apply Ha, Hx.
Qed.

Lemma in_insert_by (p x : Q * nat) (l : list (Q * nat)) :
  In x (Ref.insert_by p l) <-> x = p \/ In x l.
Proof.
  induction l as [|q r IH]; simpl.
  - intuition auto.
  - destruct (Qle_bool (fst p) (fst q)); simpl; [intuition auto|].
    rewrite IH. intuition auto.
Qed.

Lemma insert_by_sorted (p : Q * nat) (l : list (Q * nat)) :
  StronglySorted Ref.before l ->
  Forall (fun q => snd p < snd q) l ->
  StronglySorted Ref.before (Ref.insert_by p l).
Proof.
  induction l as [|q r IH]; intros Hs Hlt; simpl.
  - repeat constructor.
  - apply StronglySorted_inv in Hs. destruct Hs as [Hr Hq].
    destruct (Qle_bool (fst p) (fst q)) eqn:Hle.
    + apply Qle_bool_iff in Hle.
      constructor; [constructor; assumption|].
      rewrite Forall_forall in *. intros x Hx. split.
      * destruct Hx as [<-|Hx]; [exact Hle|].
        apply Qle_trans with (fst q); [exact Hle|apply Hq, Hx].
      * intros _. apply Hlt, Hx.
    + assert (Hgt : (fst q < fst p)%Q).
      { apply Qnot_le_lt. intro H. apply Qle_bool_iff in H. congruence. }
      inversion Hlt as [|? ? Hpq Hlt']; subst.
      constructor; [apply IH; assumption|].
      rewrite Forall_forall in *. intros x Hx.
      apply in_insert_by in Hx. destruct Hx as [->|Hx]; [|apply Hq, Hx].
      split; [apply Qlt_le_weak, Hgt|].
      intro Heq. exfalso. rewrite Heq in Hgt. exact (Qlt_irrefl _ Hgt).
Qed.

Lemma sorted_pairs (a : list Q) :
  forall k,
    let l := fold_right Ref.insert_by [] (combine a (seq k (List.length a))) in
    StronglySorted Ref.before l
    /\ Forall (fun q => k <= snd q /\ nth (snd q - k) a 0%Q = fst q) l.
Proof.
  induction a as [|x a IH]; intro k; simpl.
  - split; constructor.
  - destruct (IH (S k)) as [Hs Hf]. split.
    + apply insert_by_sorted; [exact Hs|].
      eapply Forall_impl; [|exact Hf]. simpl. intros q [Hq _]. lia.
    + rewrite Forall_forall in *. intros q Hq.
      apply in_insert_by in Hq. destruct Hq as [->|Hq]; simpl.
      * rewrite Nat.sub_diag. split; [lia|reflexivity].
      * destruct (Hf q Hq) as [Hk Hn]. split; [lia|].
        replace (snd q - k) with (S (snd q - S k)) by lia. exact Hn.
Qed.

Lemma ref_argsort_before (a : list Q) :
  StronglySorted
    (fun i j => (sim_at a i <= sim_at a j)%Q
                /\ ((sim_at a i == sim_at a j)%Q -> i < j))
    (Ref.ref_argsort a).
Proof.
  unfold Ref.ref_argsort. apply StronglySorted_map.
  destruct (sorted_pairs a 0) as [Hs Hf]. simpl in Hs, Hf.
  eapply StronglySorted_weaken; [|exact Hs].
  rewrite Forall_forall in Hf.
  intros p q Hp Hq [Hle Htie].
  destruct (Hf p Hp) as [_ Ep]. destruct (Hf q Hq) as [_ Eq].
  rewrite Nat.sub_0_r in Ep, Eq. unfold sim_at. rewrite Ep, Eq. auto.
Qed.

Lemma ref_argsort_sorts : @argsort_sorts Ref.externals.
Proof.
  intro a. eapply StronglySorted_weaken; [|apply ref_argsort_before].
  intros i j _ _ [H _]. exact H.
Qed.


End RefArgsort.

(** ** Runs of the model *)

Section Runs.

Import Ref.

Lemma barren_nothing_usable : nothing_usable barren.
Proof.
  intros path Hin. vm_compute in Hin.
  destruct Hin as [<-|[<-|[]]]; vm_compute; auto.
Qed.

(** C1, as stated, fails: on a directory with a blank chunk and an
    unreadable one, [load_documents] returns normally; it raises nothing,
    and the store it leaves has no document. *)
Lemma load_documents_empty_corpus_returns :
  returned (load_documents barren false) fresh = Ok tt
  /\ ~ (exists e, returned (load_documents barren false) fresh = Raise e)
  /\ count (self (after (load_documents barren false) fresh)) = 0.
Proof.
  split; [reflexivity|]. split; [|reflexivity].
  intros [e H]. vm_compute in H. discriminate.
Qed.

Lemma load_documents_empty_corpus_witness :
  nothing_usable barren
  /\ (false = true \/ count (self fresh) = 0)
  /\ exists w',
       load_documents barren false fresh = (Ok tt, w')
       /\ vectorizer (self w') = vectorizer (self fresh)
       /\ count (self w') = 0
       /\ db w' = db fresh
       /\ exists l, log w' = l ++ [(WARNING, NoDocumentsLoaded)].
Proof.
  split; [exact barren_nothing_usable|].
  split; [right; reflexivity|].
  apply (load_documents_empty_corpus barren false fresh).
  - exact barren_nothing_usable.
  - right. reflexivity.
Defined.

(** C2, as stated, fails: on files that hold the records of two chunks and
    an array of one row, a new store loads the two records next to the
    one-row matrix, and reports a successful load. *)
Lemma loaded_index_mismatch :
  let w := after init (boot unmatched_files) in
  List.length (document_data (self w)) = 2
  /\ option_map shape0 (vectors (self w)) = Some 1
  /\ In (INFO, LoadedFromDisk 2) (log w)
  /\ ~ consistent (self w).
Proof.
  cbv zeta. split; [reflexivity|]. split; [reflexivity|]. split.
  - vm_compute. auto.
  - unfold consistent. vm_compute. discriminate.
Qed.

(** C3, as stated, fails: the chunks [me_chunk_a] and [me_chunk_b] have the
    same text, hence the same similarity to the query, and the result lists
    [me_chunk_b], the later document, first. *)
Lemma ties_come_in_reverse_order :
  exists rs w',
    query "fever" 5 indexed = (Ok rs, w')
    /\ map r_id rs = ["me_chunk_b"; "me_chunk_a"]
    /\ ~ ties_in_document_order (document_data (self indexed)) rs.
Proof.
  eexists _, _. split; [vm_compute; reflexivity|]. split; [reflexivity|].
  intro H.
  refine (Nat.nlt_0_r 1 (H 0 1 _ _ 1 0 Nat.lt_0_1 eq_refl eq_refl _ _ _)).
  - reflexivity.
  - eexists. split; reflexivity.
  - eexists. split; reflexivity.
Qed.

Lemma query_order_and_ties_witness :
  @argsort_sorts externals
  /\ exists rs w',
       query "fever" 5 indexed = (Ok rs, w')
       /\ (rs = []
           \/ exists m qv sims idxs,
                vectors (self indexed) = Some m
                /\ transform (vectorizer (self indexed)) ["fever"] = Ok qv
                /\ cosine_similarity qv m = Ok sims
                /\ Forall2 (kept_at (document_data (self indexed)) sims) idxs rs
                /\ forall p q ip iq rp rq,
                     p < q ->
                     nth_error idxs p = Some ip -> nth_error idxs q = Some iq ->
                     nth_error rs p = Some rp -> nth_error rs q = Some rq ->
                     (similarity rq <= similarity rp)%Q
                     /\ listed_before (argsort sims) iq ip).
Proof.
  split; [exact ref_argsort_sorts|].
  exact (query_order_and_ties "fever" 5 indexed ref_argsort_sorts).
Defined.

(** C6, as stated, fails: saving a store that has no matrix succeeds and
    writes two artifacts; there is no matrix file afterwards. *)
Lemma save_without_matrix_writes_two :
  let w := after (save_model (corpus [] no_fault)) fresh in
  returned (save_model (corpus [] no_fault)) fresh = Ok tt
  /\ log w = log fresh ++ [(INFO, SavedToDisk 0)]
  /\ path_exists VectorizerPkl (db w) = true
  /\ path_exists DocumentsJson (db w) = true
  /\ path_exists VectorsNpy (db w) = false.
Proof. cbv zeta. repeat split. Qed.

Lemma query_monotonic_ranking_witness :
  @argsort_sorts externals
  /\ exists rs w',
       query "fever chest" 5 indexed = (Ok rs, w')
       /\ forall i r r',
            nth_error rs i = Some r -> nth_error rs (S i) = Some r' ->
            (similarity r' <= similarity r)%Q.
Proof.
  split; [exact ref_argsort_sorts|].
  exact (query_monotonic_ranking "fever chest" 5 indexed ref_argsort_sorts).
Defined.

Lemma load_documents_noop_when_populated_witness :
  0 < count (self indexed)
  /\ load_documents barren false indexed
     = (Ok tt,
        mkWorld (self indexed) (db indexed)
                (log indexed ++ [(INFO, AlreadyContains (count (self indexed)))])).
Proof.
  assert (H : 0 < count (self indexed)) by (vm_compute; lia).
  split; [exact H|].
  exact (load_documents_noop_when_populated barren indexed H).
Defined.

(** C10. The code where it departs from the claim: after the forced reload
    of a barren directory the files of the index of three documents are
    untouched, and a store constructed on them is the empty one, not that
    index: [np_load] refuses the matrix file that [np_save] wrote, and
    [load_model] falls back. *)
Lemma new_store_after_forced_reload_is_empty :
  let w := after (load_documents barren true) indexed in
  let w1 := after init (boot (db w)) in
  count (self indexed) = 3
  /\ db w = db indexed
  /\ self w1 = empty_store
  /\ self w1 <> self indexed
  /\ In (ERROR, ErrorLoadingModel ValueError) (log w1).
Proof.
  cbv zeta. split; [reflexivity|]. split; [reflexivity|].
  split; [reflexivity|]. split.
  - vm_compute. discriminate.
  - vm_compute. auto.
Qed.

Lemma forced_reload_of_empty_corpus_keeps_disk_witness :
  nothing_usable barren
  /\ exists w',
       load_documents barren true indexed = (Ok tt, w')
       /\ count (self w') = 0
       /\ (forall text n, fst (query text n w') = Ok [])
       /\ db w' = db indexed
       /\ (forall w0 w0',
             db w0 = db w' -> db w0' = db indexed ->
             fst (init w0) = Ok tt
             /\ self (snd (init w0)) = self (snd (init w0'))).
Proof.
  split; [exact barren_nothing_usable|].
  exact (forced_reload_of_empty_corpus_keeps_disk barren indexed
           barren_nothing_usable).
Defined.

Lemma query_only_positive_witness :
  exists rs w',
    query "zebra" 5 indexed = (Ok rs, w')
    /\ Forall (fun r => (0 < similarity r)%Q) rs
    /\ rs = [].
Proof.
  destruct (query_only_positive "zebra" 5 indexed) as [rs [w' [Hq [Hpos Hoov]]]].
  exists rs, w'. split; [exact Hq|]. split; [exact Hpos|].
  eapply Hoov; [reflexivity|reflexivity|reflexivity|].
  vm_compute. repeat constructor; discriminate.
Defined.

Lemma scan_keeps_readable_nonempty_witness :
  exists w',
    load_documents clinic false fresh = (Ok tt, w')
    /\ map id (document_data (self w'))
       = ["me_chunk_a"; "me_chunk_b"; "me_chunk_c"].
Proof.
  destruct (scan_keeps_readable_nonempty clinic fresh)
    as [recs [errs [_ [Hrecs [_ [_ Hload]]]]]].
  subst recs.
  edestruct (Hload false) as [w' [Hl Hd]].
  - right. reflexivity.
  - vm_compute. discriminate.
  - vm_compute. reflexivity.
  - exists w'. split; [exact Hl|]. rewrite Hd. reflexivity.
Defined.

(** The index built from [clinic]: three records, the others skipped. *)
Example indexed_ids :
  map id (document_data (self indexed)) = ["me_chunk_a"; "me_chunk_b"; "me_chunk_c"]
  /\ In (ERROR, ErrorReadingFile "docs/clean/me_chunk_d.txt" OSError) (log indexed).
Proof. split; [reflexivity|]. vm_compute. auto. Qed.

(** Fewer results than asked for, and none for a word outside the
    vocabulary. *)
Example query_fewer_than_asked :
  option_map (@List.length QueryResult)
    (match returned (query "chest" 5) indexed with Ok rs => Some rs | Raise _ => None end)
  = Some 1
  /\ returned (query "zebra" 5) indexed = Ok [].
Proof. split; reflexivity. Qed.

(** [n_results = 0] selects every document: [a[-0:]] is the whole array. *)
Example query_zero_results_asked :
  option_map (map r_id)
    (match returned (query "fever" 0) indexed with Ok rs => Some rs | Raise _ => None end)
  = Some ["me_chunk_b"; "me_chunk_a"].
Proof. reflexivity. Qed.

(** The index in memory after a load is consistent. *)
Example indexed_is_consistent : consistent (self indexed).
Proof. reflexivity. Qed.

End Runs.

(** ** More on the query *)

Section QueryMore.

Context {E : Externals}.

Lemma Forall2_In_l {A B} (P : A -> B -> Prop) (la : list A) (lb : list B) :
  Forall2 P la lb -> forall a, In a la -> exists b, In b lb /\ P a b.
Proof.
  induction 1 as [|x y la lb Hxy H IH]; intros a Ha; [destruct Ha|].
  destruct Ha as [<-|Ha].
  - exists y. split; [left; reflexivity|exact Hxy].
  - destruct (IH a Ha) as [b [Hb Hp]]. exists b. split; [right; exact Hb|exact Hp].
Qed.

Lemma filter_all {A} (f : A -> bool) (l : list A) :
  (forall x, In x l -> f x = true) -> filter f l = l.
Proof.
  induction l as [|a l IH]; intro H; [reflexivity|].
  simpl. rewrite (H a (or_introl eq_refl)). f_equal.
  apply IH. intros x Hx. apply H. right. exact Hx.
Qed.

Lemma StronglySorted_app_cross {A} (R : A -> A -> Prop) (l1 l2 : list A) :
  StronglySorted R (l1 ++ l2) ->
  forall x y, In x l1 -> In y l2 -> R x y.
Proof.
  induction l1 as [|a l1 IH]; intros H x y Hx Hy; [destruct Hx|].
  simpl in H. apply StronglySorted_inv in H. destruct H as [Hs Ha].
  destruct Hx as [<-|Hx].
  - rewrite Forall_forall in Ha. apply Ha. apply in_app_iff. right. exact Hy.
  - apply (IH Hs x y Hx Hy).
Qed.

(** The slice [[-n_results:]] keeps at most [n_results] indices. *)
Lemma top_indices_length (sims : list Q) (n : Z) :
  (1 <= n)%Z ->
  List.length (top_indices_of sims n) <= Z.to_nat n.
Proof.
  intro Hn. unfold top_indices_of, PySeq.reversed, PySeq.slice_from.
  rewrite length_rev, length_skipn.
  destruct (- n <? 0)%Z eqn:Hneg; [|apply Z.ltb_ge in Hneg; lia].
  lia.
Qed.

(** The result loop on indices that all have a similarity and a document. *)
Lemma collect_results_total (sims : list Q) (docs : list DocumentRecord)
    (idxs : list nat) :
  Forall (fun i => i < List.length sims /\ i < List.length docs) idxs ->
  forall acc, exists rs, collect_results sims docs idxs acc = Ok rs.
Proof.
  induction 1 as [|idx rest [Hs Hd] _ IH]; intro acc; simpl.
  - exists acc. reflexivity.
  - apply nth_error_Some in Hs. apply nth_error_Some in Hd.
    destruct (nth_error sims idx) as [sim|]; [|congruence].
    destruct (Qgtb sim 0).
    + destruct (nth_error docs idx) as [doc|]; [|congruence]. apply IH.
    + apply IH.
Qed.

(** The result loop raises as soon as an index has no similarity, or has a
    positive one and no document. *)
Lemma collect_results_raises (sims : list Q) (docs : list DocumentRecord)
    (idxs : list nat) (idx : nat) :
  In idx idxs ->
  nth_error sims idx = None
  \/ (Qgtb (sim_at sims idx) 0 = true /\ nth_error docs idx = None) ->
  forall acc, collect_results sims docs idxs acc = Raise IndexError.
Proof.
  induction idxs as [|i rest IH]; intros Hin Hbad acc; [destruct Hin|].
  simpl.
  destruct (nth_error sims i) as [sim|] eqn:Hsim; [|reflexivity].
  pose proof (nth_error_sim_at _ _ _ Hsim) as Hat.
  destruct Hin as [->|Hin].
  - destruct Hbad as [Hnone|[Hpos Hdoc]]; [congruence|].
    rewrite Hat in Hpos. rewrite Hpos, Hdoc. reflexivity.
  - destruct (Qgtb sim 0).
    + destruct (nth_error docs i); [|reflexivity]. apply IH; assumption.
    + apply IH; assumption.
Qed.

(** What [query] does once the similarities are computed. *)
Lemma query_computes (text : string) (n : Z) (w : World)
    (m : Matrix) (qv : QueryVector) (sims : list Q) :
  document_data (self w) <> [] ->
  vectors (self w) = Some m ->
  transform (vectorizer (self w)) [text] = Ok qv ->
  cosine_similarity qv m = Ok sims ->
  query text n w
  = match collect_results sims (document_data (self w))
            (top_indices_of sims n) [] with
    | Ok rs => (Ok rs, w)
    | Raise e =>
        (Ok [], mkWorld (self w) (db w) (log w ++ [(ERROR, ErrorQuerying e)]))
    end.
Proof.
  intros Hd Hv Ht Hc.
  unfold query, bind, get_self, try_except, lift, logger, ret.
  destruct (document_data (self w)) as [|d0 docs]; [congruence|].
  rewrite Hv, Ht, Hc.
  destruct (collect_results sims (d0 :: docs) (top_indices_of sims n) []);
    reflexivity.
Qed.

(** X1. [query] never raises and never changes the store or the files; it
    logs at most one entry, and an error entry only with an empty
    result. *)
Theorem query_leaves_store_and_files (text : string) (n : Z) (w : World) :
  exists rs w',
    query text n w = (Ok rs, w')
    /\ self w' = self w /\ db w' = db w
    /\ (log w' = log w
        \/ (log w' = log w ++ [(WARNING, StoreIsEmpty)] /\ rs = [])
        \/ exists e, log w' = log w ++ [(ERROR, ErrorQuerying e)] /\ rs = []).
Proof.
  unfold query, bind, get_self, try_except, lift, logger, ret.
  destruct (document_data (self w)) as [|d0 docs].
  { eexists _, _. split; [reflexivity|]. simpl. split; [reflexivity|]. split; [reflexivity|]. eauto 8. }
  destruct (vectors (self w)) as [m|].
  2:{ eexists _, _. split; [reflexivity|]. simpl. split; [reflexivity|]. split; [reflexivity|]. eauto 8. }
  destruct (transform (vectorizer (self w)) [text]) as [qv|e].
  2:{ eexists _, _. split; [reflexivity|]. simpl. split; [reflexivity|]. split; [reflexivity|]. eauto 8. }
  destruct (cosine_similarity qv m) as [sims|e].
  2:{ eexists _, _. split; [reflexivity|]. simpl. split; [reflexivity|]. split; [reflexivity|]. eauto 8. }
  destruct (collect_results sims (d0 :: docs) (top_indices_of sims n) [])
    as [rs|e].
  2:{ eexists _, _. split; [reflexivity|]. simpl. split; [reflexivity|]. split; [reflexivity|]. eauto 8. }
  exists rs, w. auto.
Qed.

(** X2. For [n_results >= 1], [query] returns at most [n_results]
    results. *)
Theorem query_at_most_n_results (text : string) (n : Z) (w : World) :
  (1 <= n)%Z ->
  exists rs w',
    query text n w = (Ok rs, w') /\ (Z.of_nat (List.length rs) <= n)%Z.
Proof.
  intro Hn.
  destruct (query_ranked text n w) as [rs [w' [Hq [_ [_ [sims Hrs]]]]]].
  exists rs, w'. split; [exact Hq|].
  destruct Hrs as [Hk| ->]; [|simpl; lia].
  apply Forall2_length in Hk. rewrite <- Hk.
  pose proof (filter_length_le (fun i => Qgtb (sim_at sims i) 0)
                (top_indices_of sims n)) as Hf.
  pose proof (top_indices_length sims n Hn). lia.
Qed.

(** X3. [n_results = 0] does not ask for no result: [[-0:]] is the whole
    array, and the query returns what it returns for any [n_results] that
    is at least the number of indices. *)
Theorem query_zero_means_all (text : string) (n : Z) (w : World)
    (m : Matrix) (qv : QueryVector) (sims : list Q) :
  vectors (self w) = Some m ->
  transform (vectorizer (self w)) [text] = Ok qv ->
  cosine_similarity qv m = Ok sims ->
  (Z.of_nat (List.length (argsort sims)) <= n)%Z ->
  query text 0 w = query text n w.
Proof.
  intros Hv Ht Hc Hn.
  assert (Htop : top_indices_of sims 0 = top_indices_of sims n).
  { unfold top_indices_of, PySeq.slice_from. f_equal.
    change (- 0 <? 0)%Z with false. cbv beta iota zeta.
    destruct (- n <? 0)%Z eqn:Hneg.
    - f_equal. lia.
    - apply Z.ltb_ge in Hneg. f_equal. lia. }
  unfold query, bind, get_self, try_except, lift, logger, ret.
  destruct (document_data (self w)) as [|d0 docs]; [reflexivity|].
  rewrite Hv, Ht, Hc, Htop. reflexivity.
Qed.

(** X4. When the document list is shorter than the matrix and one of the
    top indices with a positive similarity has no document, the lookup
    raises inside the [try]: the query returns the empty list and logs
    the error, whatever the other documents score. *)
Theorem query_missing_document_empties_result (text : string) (n : Z)
    (w : World) (m : Matrix) (qv : QueryVector) (sims : list Q) (idx : nat) :
  document_data (self w) <> [] ->
  vectors (self w) = Some m ->
  transform (vectorizer (self w)) [text] = Ok qv ->
  cosine_similarity qv m = Ok sims ->
  In idx (top_indices_of sims n) ->
  (0 < sim_at sims idx)%Q ->
  List.length (document_data (self w)) <= idx ->
  query text n w
  = (Ok [], mkWorld (self w) (db w) (log w ++ [(ERROR, ErrorQuerying IndexError)])).
Proof.
  intros Hd Hv Ht Hc Hin Hpos Hshort.
  rewrite (query_computes text n w m qv sims Hd Hv Ht Hc).
  rewrite (collect_results_raises sims (document_data (self w))
             (top_indices_of sims n) idx Hin); [reflexivity|].
  destruct (nth_error sims idx) eqn:Hs; [right|left; reflexivity].
  split; [apply Qgtb_lt, Hpos|]. apply nth_error_None. exact Hshort.
Qed.

End QueryMore.

Section QueryBest.

Context {E : Externals}.

Lemma top_indices_positive_n (sims : list Q) (n : Z) :
  (1 <= n)%Z ->
  top_indices_of sims n
  = rev (skipn (List.length (argsort sims) - Z.to_nat n) (argsort sims)).
Proof.
  intro Hn. unfold top_indices_of, PySeq.reversed, PySeq.slice_from.
  destruct (- n <? 0)%Z eqn:Hneg; [|apply Z.ltb_ge in Hneg; lia].
  do 2 f_equal. lia.
Qed.

Lemma in_top_indices (sims : list Q) (n : Z) (i : nat) :
  In i (top_indices_of sims n) -> In i (argsort sims).
Proof.
  unfold top_indices_of, PySeq.reversed, PySeq.slice_from.
  intro H. apply in_rev in H.
  match type of H with In _ (skipn ?k _) =>
    rewrite <- (firstn_skipn k (argsort sims)) end.
  apply in_app_iff. right. exact H.
Qed.

Lemma top_indices_NoDup (sims : list Q) (n : Z) :
  NoDup (argsort sims) -> NoDup (top_indices_of sims n).
Proof.
  intro H. unfold top_indices_of, PySeq.reversed, PySeq.slice_from.
  apply NoDup_rev.
  match goal with |- NoDup (skipn ?k _) =>
    rewrite <- (firstn_skipn k (argsort sims)) in H end.
  apply NoDup_app_remove_l in H. exact H.
Qed.

(** X5. The results are the best ones.  On a store with a document for
    every row, a document is in the result with its similarity, or its
    similarity is not positive, or it is left out because [n_results]
    results, each at least as similar, are returned.  This holds for an
    [argsort] that sorts and returns every index once. *)
Theorem query_returns_the_best (text : string) (n : Z) (w : World)
    (m : Matrix) (qv : QueryVector) (sims : list Q) :
  argsort_sorts -> argsort_permutes ->
  (1 <= n)%Z ->
  vectors (self w) = Some m ->
  transform (vectorizer (self w)) [text] = Ok qv ->
  cosine_similarity qv m = Ok sims ->
  List.length sims <= List.length (document_data (self w)) ->
  exists rs w',
    query text n w = (Ok rs, w')
    /\ forall i s doc,
         nth_error sims i = Some s ->
         nth_error (document_data (self w)) i = Some doc ->
         In (mkResult (content doc) (metadata doc) (id doc) s) rs
         \/ (s <= 0)%Q
         \/ (Forall (fun r => (s <= similarity r)%Q) rs
             /\ Z.of_nat (List.length rs) = n).
Proof.
  intros Hsort Hperm Hn Hv Ht Hc Hlen.
  destruct (document_data (self w)) as [|d0 docs0] eqn:Hdocs.
  { destruct (query_returns text n w) as [rs [w' [Hq _]]].
    exists rs, w'. split; [exact Hq|].
    intros i s doc _ Hdoc. destruct i; discriminate. }
  rewrite <- Hdocs in *.
  assert (Hne : document_data (self w) <> []) by (rewrite Hdocs; discriminate).
  pose proof (Hperm sims) as HP.
  assert (Hrange : forall j, In j (argsort sims) -> j < List.length sims).
  { intros j Hj. apply (Permutation_in _ HP) in Hj. apply in_seq in Hj. lia. }
  destruct (collect_results_total sims (document_data (self w))
              (top_indices_of sims n)) with (acc := @nil QueryResult)
    as [rs Hrs].
  { rewrite Forall_forall. intros j Hj. apply in_top_indices in Hj.
    apply Hrange in Hj. lia. }
  exists rs, w. split.
  { rewrite (query_computes text n w m qv sims Hne Hv Ht Hc), Hrs. reflexivity. }
  destruct (collect_results_spec _ _ _ _ _ Hrs) as [new [Heq Hk]].
  simpl in Heq. subst new.
  intros i s doc Hs Hdoc.
  pose proof (nth_error_sim_at _ _ _ Hs) as Hat.
  destruct (Qlt_le_dec 0 s) as [Hpos|Hle]; [|right; left; exact Hle].
  assert (Hi : In i (argsort sims)).
  { apply (Permutation_in _ (Permutation_sym HP)). apply in_seq.
    assert (i < List.length sims) by (apply nth_error_Some; congruence). lia. }
  rewrite (top_indices_positive_n sims n Hn) in Hk.
  set (k := List.length (argsort sims) - Z.to_nat n) in *.
  rewrite <- (firstn_skipn k (argsort sims)) in Hi.
  apply in_app_iff in Hi. destruct Hi as [Hfirst|Hlast].
  - right. right.
    pose proof (Hsort sims) as HS.
    rewrite <- (firstn_skipn k (argsort sims)) in HS.
    assert (Hge : forall j, In j (skipn k (argsort sims)) ->
                            (s <= sim_at sims j)%Q).
    { intros j Hj. rewrite <- Hat.
      apply (StronglySorted_app_cross _ _ _ HS i j Hfirst Hj). }
    rewrite filter_all in Hk.
    2:{ intros j Hj. apply in_rev in Hj. apply Qgtb_lt.
        apply Qlt_le_trans with s; [exact Hpos|apply Hge, Hj]. }
    split.
    + rewrite Forall_forall. intros r Hr.
      destruct (Forall2_In_r _ _ _ Hk r Hr) as [j [Hj [_ [-> _]]]].
      apply Hge. apply in_rev. exact Hj.
    + apply Forall2_length in Hk. rewrite <- Hk, length_rev, length_skipn.
      assert (0 < k).
      { destruct k; [destruct Hfirst|lia]. }
      unfold k in *. lia.
  - left.
    assert (Hin : In i (filter (fun i0 => Qgtb (sim_at sims i0) 0)
                          (rev (skipn k (argsort sims))))).
    { apply filter_In. split; [apply in_rev in Hlast; exact Hlast|].
      rewrite Hat. apply Qgtb_lt. exact Hpos. }
    destruct (Forall2_In_l _ _ _ Hk i Hin) as [r [Hr [[doc' [Hdoc' Hbuilt]] [Hsim _]]]].
    rewrite Hdoc in Hdoc'. injection Hdoc' as <-.
    rewrite Hsim, Hat in Hbuilt. rewrite <- Hbuilt. exact Hr.
Qed.

(** X6. No document is returned twice: the results come from pairwise
    different positions of [document_data], for an [argsort] that returns
    every index once. *)
Theorem query_no_document_twice (text : string) (n : Z) (w : World) :
  argsort_permutes ->
  exists rs w' idxs,
    query text n w = (Ok rs, w')
    /\ NoDup idxs
    /\ Forall2 (built_from (document_data (self w))) idxs rs.
Proof.
  intro Hperm.
  destruct (query_ranked text n w) as [rs [w' [Hq [_ [_ [sims Hrs]]]]]].
  destruct Hrs as [Hk| ->].
  - exists rs, w', (filter (fun i => Qgtb (sim_at sims i) 0) (top_indices_of sims n)).
    split; [exact Hq|]. split.
    + apply NoDup_filter, top_indices_NoDup.
      apply (Permutation_NoDup (Permutation_sym (Hperm sims))), seq_NoDup.
    + eapply Forall2_impl; [|exact Hk]. intros i r [Hb _]. exact Hb.
  - exists [], w', []. split; [exact Hq|]. split; constructor.
Qed.

End QueryBest.

(** ** More on persistence and reloading *)

Section PersistenceMore.

Context {E : Externals}.

Lemma db_eta (d : Db) :
  d = mkDb (vectorizer_file d) (documents_file d) (vectors_file d).
Proof. destruct d; reflexivity. Qed.

(** A store constructed on files of which one is cut short is empty. *)
Lemma init_on_partial (w0 : World) (a : Artifact) :
  db_get a (db w0) = Partial ->
  exists w1, init w0 = (Ok tt, w1) /\ self w1 = empty_store.
Proof.
  intro Hp. destruct (init_spec w0) as [w1 [Hi [_ H]]].
  exists w1. split; [exact Hi|].
  destruct H as [[v [docs [m [[bv [bd [bm [Hdb _]]]] _]]]] | [_ Hs]]; [|exact Hs].
  rewrite Hdb in Hp. destruct a; discriminate.
Qed.

Lemma refused_matrix_empties (env : Env) (w : World) (m : Matrix) (e : Exn) :
  (forall a, write_fault env a = WriteOk) ->
  vectors (self w) = Some m ->
  np_load (np_save m) = Raise e ->
  exists w',
    save_model env w = (Ok tt, w')
    /\ self w' = self w
    /\ log w' = log w ++ [(INFO, SavedToDisk (count (self w)))]
    /\ forall w0, db w0 = db w' ->
         exists w1, init w0 = (Ok tt, w1) /\ self w1 = empty_store.
Proof.
  intros Hok Hv Hload.
  destruct (save_model_spec env w) as [w' [Hs [Hself H]]].
  exists w'. split; [exact Hs|]. split; [exact Hself|].
  destruct H as [[_ [_ [_ [Hlog [_ [_ Hfm]]]]]] | [a [e' [Hf _]]]].
  2:{ rewrite Hok in Hf. destruct Hf; discriminate. }
  split; [exact Hlog|].
  intros w0 Hdb. rewrite Hv in Hfm.
  destruct (init_spec w0) as [w1 [Hi [_ H]]].
  exists w1. split; [exact Hi|].
  destruct H as [[v [docs [m' [Hst _]]]] | [_ Hs1]]; [|exact Hs1].
  exfalso. apply (stored_usable _ _ _ _ Hst).
  right. right. right. right. exists (np_save m), e.
  split; [congruence|exact Hload].
Qed.


(** X8. A save that fails while dumping leaves a file cut short, and the
    next store constructed on the files is the empty one; the store that
    saved keeps its index. *)
Theorem truncated_save_empties_next_store (env : Env) (w : World) :
  (exists e, write_fault env VectorizerPkl = DumpFails e)
  \/ (write_fault env VectorizerPkl = WriteOk
      /\ exists e, write_fault env DocumentsJson = DumpFails e)
  \/ (write_fault env VectorizerPkl = WriteOk
      /\ write_fault env DocumentsJson = WriteOk
      /\ vectors (self w) <> None
      /\ exists e, write_fault env VectorsNpy = DumpFails e) ->
  exists w',
    save_model env w = (Ok tt, w')
    /\ self w' = self w
    /\ forall w0, db w0 = db w' ->
         exists w1, init w0 = (Ok tt, w1) /\ self w1 = empty_store.
Proof.
  intro Hfault.
  assert (H : exists w' a,
             save_model env w = (Ok tt, w') /\ self w' = self w
             /\ db_get a (db w') = Partial).
  { destruct w as [[v docs m] [fv fd fm] l].
    unfold save_model, try_except, bind, ret, get_self, logger, write_artifact,
      db_put. simpl in *.
    destruct Hfault as [[e H1] | [[H1 [e H2]] | [H1 [H2 [Hm [e H3]]]]]].
    - rewrite H1. eexists _, VectorizerPkl. repeat split.
    - rewrite H1, H2. simpl. eexists _, DocumentsJson. repeat split.
    - rewrite H1, H2. simpl. destruct m as [m|]; [|congruence].
      rewrite H3. simpl. eexists _, VectorsNpy. repeat split. }
  destruct H as [w' [a [Hs [Hself Hp]]]].
  exists w'. split; [exact Hs|]. split; [exact Hself|].
  intros w0 Hdb. apply (init_on_partial w0 a). rewrite Hdb. exact Hp.
Qed.

(** [load_documents] when the fit succeeds, with the save it ends on. *)
Lemma load_documents_fitted_save (env : Env) (force : bool) (w : World)
    (m : Matrix) (v' : Vectorizer) :
  flat_map (record_for env) (glob_chunks env) <> [] ->
  force = true \/ count (self w) = 0 ->
  fit_transform (vectorizer (self w))
    (map content (flat_map (record_for env) (glob_chunks env))) = (Ok m, v') ->
  exists w0 ws w',
    self w0 = mkStore v' (flat_map (record_for env) (glob_chunks env)) (Some m)
    /\ db w0 = db w
    /\ save_model env w0 = (Ok tt, ws)
    /\ load_documents env force w = (Ok tt, w')
    /\ self w' = self ws /\ db w' = db ws.
Proof.
  intros Hsome Hscan Hfit.
  assert (Hgo : negb force && (0 <? count (self w))%nat = false).
  { destruct Hscan as [->| ->]; [reflexivity|]. apply andb_false_r. }
  unfold load_documents, bind, get_self, logger, set_vectorizer,
    set_document_data, set_vectors, lift, ret.
  rewrite Hgo.
  destruct force; simpl; rewrite read_chunks_spec; simpl;
    (destruct (flat_map (record_for env) (glob_chunks env)) as [|r recs] eqn:Hrecs;
     [congruence|]);
    simpl in *; rewrite Hfit; simpl;
    match goal with |- context [save_model env ?w0] =>
      destruct (save_model_spec env w0) as [w1 [Hs _]];
      exists w0, w1; rewrite Hs
    end;
    (eexists; repeat split; reflexivity).
Qed.

(** X9. The index [load_documents] builds is lost on restart when
    [np.load] refuses what [np.save] wrote for the matrix: after a load
    that fits and saves without write failure the store holds the new
    index, and a store constructed on the files is the empty one and
    answers every query with the empty list. *)
Theorem load_documents_then_new_store_is_empty (env : Env) (force : bool)
    (w : World) (m : Matrix) (v' : Vectorizer) (e : Exn) :
  flat_map (record_for env) (glob_chunks env) <> [] ->
  force = true \/ count (self w) = 0 ->
  fit_transform (vectorizer (self w))
    (map content (flat_map (record_for env) (glob_chunks env))) = (Ok m, v') ->
  (forall a, write_fault env a = WriteOk) ->
  np_load (np_save m) = Raise e ->
  exists w',
    load_documents env force w = (Ok tt, w')
    /\ self w'
       = mkStore v' (flat_map (record_for env) (glob_chunks env)) (Some m)
    /\ forall w0, db w0 = db w' ->
         exists w1,
           init w0 = (Ok tt, w1)
           /\ self w1 = empty_store
           /\ forall text n, fst (query text n w1) = Ok [].
Proof.
  intros Hsome Hscan Hfit Hok Hload.
  destruct (load_documents_fitted_save env force w m v' Hsome Hscan Hfit)
    as [wm [ws [w' [Hm [_ [Hs [Hl [Hself Hdb]]]]]]]].
  exists w'. split; [exact Hl|].
  destruct (refused_matrix_empties env wm m e Hok) as [ws' [Hs' [Hkeep [_ Hinit]]]];
    [rewrite Hm; reflexivity|exact Hload|].
  rewrite Hs in Hs'. injection Hs' as <-.
  split; [congruence|].
  intros w0 Hdb0.
  destruct (Hinit w0) as [w1 [Hi H1]]; [congruence|].
  exists w1. split; [exact Hi|]. split; [exact H1|].
  intros text n. unfold query, bind, get_self. rewrite H1. reflexivity.
Qed.

Lemma load_documents_fit_raises (env : Env) (force : bool)
    (w : World) (e : Exn) (v' : Vectorizer) :
  flat_map (record_for env) (glob_chunks env) <> [] ->
  force = true \/ count (self w) = 0 ->
  fit_transform (vectorizer (self w))
    (map content (flat_map (record_for env) (glob_chunks env))) = (Raise e, v') ->
  exists w',
    load_documents env force w = (Raise e, w')
    /\ self w' = mkStore v' [] (if force then None else vectors (self w))
    /\ db w' = db w.
Proof.
  intros Hsome Hscan Hfit.
  assert (Hgo : negb force && (0 <? count (self w))%nat = false).
  { destruct Hscan as [->| ->]; [reflexivity|]. apply andb_false_r. }
  unfold load_documents, bind, get_self, logger, set_vectorizer,
    set_document_data, set_vectors, lift, ret.
  rewrite Hgo.
  destruct force; simpl; rewrite read_chunks_spec; simpl;
    (destruct (flat_map (record_for env) (glob_chunks env)) as [|r recs] eqn:Hrecs;
     [congruence|]);
    simpl in *; rewrite Hfit; simpl.
  - eexists. repeat split.
  - destruct Hscan as [Hf|Hc]; [discriminate|].
    apply length_zero_iff_nil in Hc. rewrite Hc.
    eexists. repeat split.
Qed.

(** X10. A fit that raises is not caught: [load_documents] raises the same
    exception.  The store then has no document (and no matrix after a
    forced reload), the vectorizer is as the failed fit left it, and the
    files are untouched. *)
Theorem load_documents_propagates_fit_failure (env : Env) (force : bool)
    (w : World) (e : Exn) (v' : Vectorizer) :
  flat_map (record_for env) (glob_chunks env) <> [] ->
  force = true \/ count (self w) = 0 ->
  fit_transform (vectorizer (self w))
    (map content (flat_map (record_for env) (glob_chunks env))) = (Raise e, v') ->
  exists w',
    load_documents env force w = (Raise e, w')
    /\ self w' = mkStore v' [] (if force then None else vectors (self w))
    /\ db w' = db w.
Proof. exact (load_documents_fit_raises env force w e v'). Qed.

Lemma load_documents_skips (env : Env) (w : World) :
  0 < count (self w) ->
  load_documents env false w
  = (Ok tt,
     mkWorld (self w) (db w)
             (log w ++ [(INFO, AlreadyContains (count (self w)))])).
Proof.
  intro H. unfold load_documents, bind, get_self. simpl.
  apply Nat.ltb_lt in H. rewrite H. reflexivity.
Qed.

(** X11. Once a load has indexed documents, a later [load_documents]
    without [force_reload] does nothing, whatever the corpus directory has
    become: the store and the files stay as the first load left them. *)
Theorem second_unforced_load_does_nothing (env env2 : Env) (force : bool)
    (w : World) (m : Matrix) (v' : Vectorizer) :
  flat_map (record_for env) (glob_chunks env) <> [] ->
  force = true \/ count (self w) = 0 ->
  fit_transform (vectorizer (self w))
    (map content (flat_map (record_for env) (glob_chunks env))) = (Ok m, v') ->
  exists w1 w2,
    load_documents env force w = (Ok tt, w1)
    /\ load_documents env2 false w1 = (Ok tt, w2)
    /\ self w2 = self w1 /\ db w2 = db w1.
Proof.
  intros Hsome Hscan Hfit.
  destruct (load_documents_fitted env force w m v' Hsome Hscan Hfit)
    as [w1 [Hl Hs]].
  exists w1. eexists. split; [exact Hl|].
  rewrite load_documents_skips.
  - split; [reflexivity|]. split; reflexivity.
  - unfold count. rewrite Hs. simpl.
    destruct (flat_map (record_for env) (glob_chunks env)); [congruence|].
    simpl. lia.
Qed.

End PersistenceMore.

(** ** Stripping, matching and naming *)

Section Strings.

Lemma lstrip_empty_iff (s : string) :
  PyStr.lstrip s = EmptyString <-> blank s = true.
Proof.
  induction s as [|c r IH]; simpl; [tauto|].
  destruct (PyStr.isspace c); simpl; [exact IH|].
  split; discriminate.
Qed.

Lemma rstrip_empty_iff (s : string) :
  PyStr.rstrip s = EmptyString <-> blank s = true.
Proof.
  induction s as [|c r IH]; simpl; [tauto|].
  destruct (PyStr.rstrip r) eqn:Hr.
  - destruct (PyStr.isspace c); simpl.
    + split; [intros _; apply IH; reflexivity|reflexivity].
    + split; discriminate.
  - split; [discriminate|].
    intro H. apply andb_true_iff in H. destruct H as [_ H].
    apply IH in H. discriminate.
Qed.

Lemma blank_lstrip (s : string) : blank (PyStr.lstrip s) = blank s.
Proof.
  induction s as [|c r IH]; simpl; [reflexivity|].
  destruct (PyStr.isspace c) eqn:Hc; simpl; [exact IH|].
  rewrite Hc. reflexivity.
Qed.

Lemma strip_empty_iff (s : string) :
  PyStr.strip s = EmptyString <-> blank s = true.
Proof.
  unfold PyStr.strip. rewrite rstrip_empty_iff, blank_lstrip. tauto.
Qed.

Lemma lstrip_no_leading_space (s : string) : no_leading_space (PyStr.lstrip s).
Proof.
  induction s as [|c r IH]; simpl; [exact I|].
  destruct (PyStr.isspace c) eqn:Hc; [exact IH|exact Hc].
Qed.

Lemma lstrip_fixed (s : string) : no_leading_space s -> PyStr.lstrip s = s.
Proof. destruct s as [|c r]; simpl; [reflexivity|]. intros ->. reflexivity. Qed.

Lemma rstrip_no_leading_space (s : string) :
  no_leading_space s -> no_leading_space (PyStr.rstrip s).
Proof.
  destruct s as [|c r]; simpl; [trivial|]. intro Hc.
  destruct (PyStr.rstrip r); [rewrite Hc|]; exact Hc.
Qed.

Lemma rstrip_idempotent (s : string) :
  PyStr.rstrip (PyStr.rstrip s) = PyStr.rstrip s.
Proof.
  induction s as [|c r IH]; simpl; [reflexivity|].
  destruct (PyStr.rstrip r) as [|d t] eqn:Hr.
  - destruct (PyStr.isspace c) eqn:Hc; simpl; [reflexivity|].
    rewrite Hc. reflexivity.
  - change (PyStr.rstrip (String c (String d t)))
      with (match PyStr.rstrip (String d t) with
            | EmptyString =>
                if PyStr.isspace c then EmptyString else String c EmptyString
            | r' => String c r'
            end).
    rewrite IH. reflexivity.
Qed.

(** A stripped text has no whitespace left to strip at either end. *)
Lemma strip_idempotent (s : string) :
  PyStr.strip (PyStr.strip s) = PyStr.strip s.
Proof.
  unfold PyStr.strip.
  rewrite (lstrip_fixed (PyStr.rstrip (PyStr.lstrip s))).
  - apply rstrip_idempotent.
  - apply rstrip_no_leading_space, lstrip_no_leading_space.
Qed.

Lemma record_skipped_iff (env : Env) (file_path : string) :
  record_for env file_path = []
  <-> (exists e, read_text env file_path = Raise e)
      \/ (exists text, read_text env file_path = Ok text /\ blank text = true).
Proof.
  unfold record_for. destruct (read_text env file_path) as [text|e].
  - destruct (PyStr.truthy (PyStr.strip text)) eqn:Ht.
    + split; [discriminate|].
      intros [[e He]|[t [Ht' Hb]]]; [discriminate|].
      injection Ht' as <-. apply strip_empty_iff in Hb.
      rewrite Hb in Ht. discriminate.
    + split; [|reflexivity]. intros _. right. exists text.
      split; [reflexivity|]. apply strip_empty_iff.
      destruct (PyStr.strip text); [reflexivity|discriminate].
  - split; [|reflexivity]. intros _. left. exists e. reflexivity.
Qed.

Lemma prefix_iff (p s : string) :
  String.prefix p s = true <-> exists r, s = (p ++ r)%string.
Proof.
  revert s. induction p as [|a p IH]; intro s; simpl.
  - destruct s; (split; [intros _; eexists; reflexivity|reflexivity]).
  - destruct s as [|b s]; simpl.
    + split; [discriminate|]. intros [r Hr]. discriminate.
    + destruct (ascii_dec a b) as [->|Hab].
      * rewrite IH. split; intros [r Hr]; exists r; congruence.
      * split; [discriminate|]. intros [r Hr]. congruence.
Qed.

Lemma length_append (p r : string) :
  String.length (p ++ r) = String.length p + String.length r.
Proof. induction p as [|a p IH]; simpl; [reflexivity|]. rewrite IH. reflexivity. Qed.

Lemma substring_all (s : string) : String.substring 0 (String.length s) s = s.
Proof. induction s as [|a s IH]; simpl; [reflexivity|]. rewrite IH. reflexivity. Qed.

Lemma substring_after (p r : string) :
  String.substring (String.length p) (String.length r) (p ++ r) = r.
Proof.
  induction p as [|a p IH]; simpl; [apply substring_all|exact IH].
Qed.

Lemma substring_split (s : string) :
  forall k, k <= String.length s ->
    s = (String.substring 0 k s
         ++ String.substring k (String.length s - k) s)%string.
Proof.
  induction s as [|a s IH]; intros k Hk; simpl in Hk.
  - assert (k = 0) by lia. subst k. reflexivity.
  - destruct k as [|k]; simpl.
    + rewrite substring_all. reflexivity.
    + rewrite <- IH by lia. reflexivity.
Qed.

Lemma endswith_iff (s suf : string) :
  PyStr.endswith s suf = true <-> exists mid, s = (mid ++ suf)%string.
Proof.
  unfold PyStr.endswith. rewrite andb_true_iff, Nat.leb_le, String.eqb_eq.
  split.
  - intros [Hle Hsub].
    exists (String.substring 0 (String.length s - String.length suf) s).
    pose proof (substring_split s (String.length s - String.length suf)) as H.
    replace (String.length s - (String.length s - String.length suf))
      with (String.length suf) in H by lia.
    rewrite Hsub in H. apply H. lia.
  - intros [mid ->]. rewrite length_append. split; [lia|].
    replace (String.length mid + String.length suf - String.length suf)
      with (String.length mid) by lia.
    apply substring_after.
Qed.

(** X12. For a [DOCS_DIR] without character special to [glob], the scan
    reads exactly the files of the directory named
    [me_chunk_<anything>.txt]. *)
Theorem glob_matches_prefix_and_suffix (env : Env) (path : string) :
  no_glob_magic (DOCS_DIR env) = true ->
  In path (glob_chunks env)
  <-> exists mid,
        In ("me_chunk_" ++ mid ++ ".txt")%string (listdir env)
        /\ path = PyStr.path_join (DOCS_DIR env)
                    ("me_chunk_" ++ mid ++ ".txt")%string.
Proof.
  intros _.
  assert (Hm : forall name,
             PyStr.fnmatch_star "me_chunk_" ".txt" name = true
             <-> exists mid, name = ("me_chunk_" ++ mid ++ ".txt")%string).
  { intro name. unfold PyStr.fnmatch_star, PyStr.startswith.
    rewrite andb_true_iff, prefix_iff. split.
    - intros [[r ->] He]. rewrite length_append in He.
      replace (String.length "me_chunk_" + String.length r
               - String.length "me_chunk_") with (String.length r) in He by lia.
      rewrite substring_after in He. apply endswith_iff in He.
      destruct He as [mid ->]. exists mid. reflexivity.
    - intros [mid ->]. split; [eexists; reflexivity|].
      rewrite length_append.
      replace (String.length "me_chunk_" + String.length (mid ++ ".txt")
               - String.length "me_chunk_")
        with (String.length (mid ++ ".txt")) by lia.
      rewrite substring_after. apply endswith_iff. exists mid. reflexivity. }
  rewrite in_glob_chunks. split.
  - intros [name [Hin [Hmatch ->]]]. apply Hm in Hmatch.
    destruct Hmatch as [mid ->]. exists mid. auto.
  - intros [mid [Hin ->]]. eexists. split; [exact Hin|].
    split; [|reflexivity]. apply Hm. exists mid. reflexivity.
Qed.

End Strings.

Section Naming.

Lemma append_assoc (a b c : string) : ((a ++ b) ++ c = a ++ b ++ c)%string.
Proof. induction a as [|x a IH]; simpl; [reflexivity|]. rewrite IH. reflexivity. Qed.

Lemma append_injective (p x y : string) : (p ++ x = p ++ y)%string -> x = y.
Proof.
  induction p as [|a p IH]; simpl; intro H; [exact H|].
  injection H as H. apply IH, H.
Qed.

Lemma lacks_append (c : ascii) (a b : string) :
  lacks c (a ++ b) = lacks c a && lacks c b.
Proof.
  induction a as [|x a IH]; simpl; [reflexivity|].
  rewrite IH. apply andb_assoc.
Qed.

Lemma replace_txt_stem (stem : string) :
  lacks "." stem = true -> PyStr.replace (stem ++ ".txt") ".txt" "" = stem.
Proof.
  unfold PyStr.replace.
  induction stem as [|d r IH]; intro H; [reflexivity|].
  simpl in H. apply andb_true_iff in H. destruct H as [Hd Hr].
  apply negb_true_iff, Ascii.eqb_neq in Hd.
  cbn [append PyStr.replace_from String.prefix].
  destruct (ascii_dec "." d) as [<-|_]; [congruence|].
  rewrite (IH Hr). reflexivity.
Qed.

Lemma after_last_slash_none (s : string) :
  lacks "/" s = true -> forall cur, PyStr.after_last_slash cur s = cur.
Proof.
  induction s as [|c r IH]; intros H cur; [reflexivity|].
  simpl in H. apply andb_true_iff in H. destruct H as [Hc Hr].
  apply negb_true_iff in Hc. simpl. rewrite Hc. apply IH, Hr.
Qed.

Lemma after_last_slash_append (a name : string) :
  lacks "/" name = true ->
  forall cur, PyStr.after_last_slash cur (a ++ "/" ++ name) = name.
Proof.
  intro H. induction a as [|c a IH]; intro cur.
  - simpl. apply after_last_slash_none, H.
  - simpl. destruct (Ascii.eqb c "/"); apply IH.
Qed.

Lemma basename_path_join (dir name : string) :
  lacks "/" name = true -> PyStr.basename (PyStr.path_join dir name) = name.
Proof.
  intro H. unfold PyStr.basename, PyStr.path_join.
  destruct (PyStr.startswith name "/"); [apply after_last_slash_none, H|].
  destruct (negb (PyStr.truthy dir) || PyStr.endswith dir "/") eqn:Hd.
  - apply orb_true_iff in Hd. destruct Hd as [Hd|Hd].
    + destruct dir; [|discriminate]. simpl. apply after_last_slash_none, H.
    + apply endswith_iff in Hd. destruct Hd as [mid ->].
      rewrite append_assoc. apply after_last_slash_append, H.
  - apply after_last_slash_append, H.
Qed.

(** X13. The id of a chunk is its file name without the extension: for a
    stem without dot or slash, the file [<stem>.txt] of the corpus
    directory gets the id [<stem>], whatever the directory. *)
Theorem file_id_is_the_stem (dir stem : string) :
  lacks "." stem = true ->
  lacks "/" stem = true ->
  file_id_of (PyStr.path_join dir (stem ++ ".txt")) = stem.
Proof.
  intros Hdot Hslash. unfold file_id_of.
  rewrite basename_path_join.
  - apply replace_txt_stem, Hdot.
  - rewrite lacks_append, Hslash. reflexivity.
Qed.

(** X14. The three artifacts are three different files: the paths
    [__init__] builds for them are pairwise distinct, whatever the
    directory and the collection name. *)
Theorem artifact_paths_distinct (dir collection : string) (a b : Artifact) :
  a <> b -> artifact_path dir collection a <> artifact_path dir collection b.
Proof.
  intros Hab Hpath. apply Hab. revert Hpath.
  unfold artifact_path, PyStr.path_join.
  assert (Hs : PyStr.startswith (artifact_name collection a) "/"
               = PyStr.startswith (artifact_name collection b) "/").
  { unfold artifact_name, PyStr.startswith.
    destruct collection as [|c collection]; destruct a, b; try reflexivity;
      cbn [append String.prefix];
      (destruct (ascii_dec "/" c); [destruct collection|]; reflexivity). }
  rewrite Hs.
  assert (Hname : artifact_name collection a = artifact_name collection b -> a = b).
  { unfold artifact_name. intro H. apply append_injective in H.
    destruct a, b; (reflexivity || discriminate). }
  destruct (PyStr.startswith (artifact_name collection b) "/"); [exact Hname|].
  destruct (negb (PyStr.truthy dir) || PyStr.endswith dir "/"); intro H;
    apply append_injective in H.
  - apply Hname, H.
  - injection H as H. apply Hname, H.
Qed.

End Naming.

(** ** What a load indexes *)

Section LoadMore.

Context {E : Externals}.

Lemma scan_accounts_for_every_file (env : Env) (files : list string) :
  List.length (flat_map (record_for env) files)
  + List.length (filter (unreadable_file env) files)
  + List.length (filter (blank_file env) files)
  = List.length files.
Proof.
  induction files as [|f files IH]; [reflexivity|].
  simpl. rewrite length_app.
  unfold record_for at 1, unreadable_file at 1, blank_file at 1.
  destruct (read_text env f) as [text|e]; simpl.
  - destruct (PyStr.truthy (PyStr.strip text)); simpl; lia.
  - lia.
Qed.

Lemma read_errors_count (env : Env) (files : list string) :
  List.length (flat_map (read_error_for env) files)
  = List.length (filter (unreadable_file env) files).
Proof.
  induction files as [|f files IH]; [reflexivity|].
  simpl. rewrite length_app, IH.
  unfold read_error_for, unreadable_file.
  destruct (read_text env f); reflexivity.
Qed.

(** X15. Every chunk file found is accounted for once: after a load that
    fits, the document count [get_status] reports, the number of
    unreadable files and the number of blank files add up to the number of
    chunk files found. *)
Theorem load_accounts_for_every_chunk (env : Env) (force : bool) (w : World)
    (m : Matrix) (v' : Vectorizer) :
  flat_map (record_for env) (glob_chunks env) <> [] ->
  force = true \/ count (self w) = 0 ->
  fit_transform (vectorizer (self w))
    (map content (flat_map (record_for env) (glob_chunks env))) = (Ok m, v') ->
  exists w',
    load_documents env force w = (Ok tt, w')
    /\ document_count (get_status (self w'))
       + List.length (filter (unreadable_file env) (glob_chunks env))
       + List.length (filter (blank_file env) (glob_chunks env))
       = List.length (glob_chunks env).
Proof.
  intros Hsome Hscan Hfit.
  destruct (load_documents_fitted env force w m v' Hsome Hscan Hfit)
    as [w' [Hl Hs]].
  exists w'. split; [exact Hl|].
  unfold get_status, count. rewrite Hs. simpl.
  apply scan_accounts_for_every_file.
Qed.

(** X16. What a load indexes: after a load that fits, every document of
    the store comes from a chunk file that was found and read; its content
    is that file's text stripped, is not empty and has no whitespace left
    at either end, and its id is derived from its source path. *)
Theorem indexed_documents_are_stripped_chunks (env : Env) (force : bool)
    (w : World) (m : Matrix) (v' : Vectorizer) :
  flat_map (record_for env) (glob_chunks env) <> [] ->
  force = true \/ count (self w) = 0 ->
  fit_transform (vectorizer (self w))
    (map content (flat_map (record_for env) (glob_chunks env))) = (Ok m, v') ->
  exists w',
    load_documents env force w = (Ok tt, w')
    /\ Forall (fun d =>
                 In (source (metadata d)) (glob_chunks env)
                 /\ (exists text,
                       read_text env (source (metadata d)) = Ok text
                       /\ content d = PyStr.strip text)
                 /\ content d <> EmptyString
                 /\ PyStr.strip (content d) = content d
                 /\ id d = file_id_of (source (metadata d)))
              (document_data (self w')).
Proof.
  intros Hsome Hscan Hfit.
  destruct (load_documents_fitted env force w m v' Hsome Hscan Hfit)
    as [w' [Hl Hs]].
  exists w'. split; [exact Hl|].
  rewrite Hs. simpl. rewrite Forall_forall. intros d Hd.
  apply in_flat_map in Hd. destruct Hd as [path [Hp Hd]].
  apply in_record_for in Hd. destruct Hd as [text [Hread [Hne ->]]]. simpl.
  split; [exact Hp|]. split; [exists text; auto|]. split; [exact Hne|].
  split; [apply strip_idempotent|reflexivity].
Qed.

(** X17. A torn save: when the model and the records are written and the
    matrix file cannot be opened, [save_model] returns normally with the
    error logged, and the files are the new model and the new records next
    to whatever matrix file was there before. *)
Theorem save_torn_at_matrix (env : Env) (w : World) (m : Matrix) (e : Exn) :
  write_fault env VectorizerPkl = WriteOk ->
  write_fault env DocumentsJson = WriteOk ->
  write_fault env VectorsNpy = OpenFails e ->
  vectors (self w) = Some m ->
  save_model env w
  = (Ok tt,
     mkWorld (self w)
             (mkDb (Written (pickle_dump (vectorizer (self w))))
                   (Written (json_dump (document_data (self w))))
                   (vectors_file (db w)))
             (log w ++ [(ERROR, ErrorSavingModel e)])).
Proof.
  intros H1 H2 H3 Hv.
  unfold save_model, try_except, bind, ret, get_self, logger, write_artifact.
  rewrite H1. simpl. rewrite H2. simpl. rewrite Hv, H3. reflexivity.
Qed.

End LoadMore.

(** ** The reference [argsort] returns every index once *)

Section RefPermutes.

Lemma insert_by_permutation (p : Q * nat) (l : list (Q * nat)) :
  Permutation (Ref.insert_by p l) (p :: l).
Proof.
  induction l as [|q r IH]; simpl; [apply Permutation_refl|].
  destruct (Qle_bool (fst p) (fst q)); [apply Permutation_refl|].
  apply Permutation_trans with (q :: p :: r).
  - apply perm_skip, IH.
  - apply perm_swap.
Qed.

Lemma insertion_permutation (l : list (Q * nat)) :
  Permutation (fold_right Ref.insert_by [] l) l.
Proof.
  induction l as [|p l IH]; simpl; [apply Permutation_refl|].
  apply Permutation_trans with (p :: fold_right Ref.insert_by [] l).
  - apply insert_by_permutation.
  - apply perm_skip, IH.
Qed.

Lemma map_snd_combine_seq (a : list Q) :
  forall k, map snd (combine a (seq k (List.length a))) = seq k (List.length a).
Proof.
  induction a as [|x a IH]; intro k; simpl; [reflexivity|].
  rewrite IH. reflexivity.
Qed.

Lemma ref_argsort_permutes : @argsort_permutes Ref.externals.
Proof.
  intro a. simpl. unfold Ref.ref_argsort.
  rewrite <- (map_snd_combine_seq a 0) at 2.
  apply Permutation_map, insertion_permutation.
Qed.

End RefPermutes.

(** ** More runs of the model *)

Section MoreRuns.

Import Ref.
Import Cases.

Lemma query_at_most_n_results_witness :
  (1 <= 1)%Z
  /\ exists rs w',
       query "fever" 1 indexed = (Ok rs, w')
       /\ (Z.of_nat (List.length rs) <= 1)%Z.
Proof.
  assert (H : (1 <= 1)%Z) by lia.
  split; [exact H|]. exact (query_at_most_n_results "fever" 1 indexed H).
Defined.

Lemma query_zero_means_all_witness :
  query "fever" 0 indexed = query "fever" 3 indexed.
Proof.
  eapply query_zero_means_all; [reflexivity|reflexivity|reflexivity|].
  vm_compute. discriminate.
Defined.

Lemma query_missing_document_empties_result_witness :
  query "chest" 5 lopsided
  = (Ok [], mkWorld (self lopsided) (db lopsided)
                    (log lopsided ++ [(ERROR, ErrorQuerying IndexError)])).
Proof.
  eapply (query_missing_document_empties_result "chest" 5 lopsided _ _ _ 2).
  - vm_compute. discriminate.
  - reflexivity.
  - reflexivity.
  - reflexivity.
  - vm_compute. auto.
  - vm_compute. reflexivity.
  - vm_compute. lia.
Defined.

Lemma query_returns_the_best_witness :
  exists rs w',
    query "fever" 1 indexed = (Ok rs, w')
    /\ forall i s doc,
         nth_error [(1 # 2)%Q; (1 # 2)%Q; 0%Q] i = Some s ->
         nth_error (document_data (self indexed)) i = Some doc ->
         In (mkResult (content doc) (metadata doc) (id doc) s) rs
         \/ (s <= 0)%Q
         \/ (Forall (fun r => (s <= similarity r)%Q) rs
             /\ Z.of_nat (List.length rs) = 1%Z).
Proof.
  eapply (query_returns_the_best "fever" 1 indexed).
  - exact ref_argsort_sorts.
  - exact ref_argsort_permutes.
  - lia.
  - reflexivity.
  - reflexivity.
  - reflexivity.
  - vm_compute. lia.
Defined.

Lemma query_no_document_twice_witness :
  @argsort_permutes externals
  /\ exists rs w' idxs,
       query "fever" 5 indexed = (Ok rs, w')
       /\ NoDup idxs
       /\ Forall2 (built_from (document_data (self indexed))) idxs rs.
Proof.
  split; [exact ref_argsort_permutes|].
  exact (query_no_document_twice "fever" 5 indexed ref_argsort_permutes).
Defined.


Lemma truncated_save_empties_next_store_witness :
  exists w',
    save_model records_dump_fails indexed = (Ok tt, w')
    /\ self w' = self indexed
    /\ forall w0, db w0 = db w' ->
         exists w1, init w0 = (Ok tt, w1) /\ self w1 = empty_store.
Proof.
  apply (truncated_save_empties_next_store records_dump_fails indexed).
  right. left. split; [reflexivity|]. exists OSError. reflexivity.
Defined.

Lemma clinic_has_records : flat_map (record_for clinic) (glob_chunks clinic) <> [].
Proof. vm_compute. discriminate. Qed.

Lemma load_documents_then_new_store_is_empty_witness :
  exists w',
    load_documents clinic false fresh = (Ok tt, w')
    /\ self w' = self indexed
    /\ forall w0, db w0 = db w' ->
         exists w1,
           init w0 = (Ok tt, w1)
           /\ self w1 = empty_store
           /\ forall text n, fst (query text n w1) = Ok [].
Proof.
  eapply (load_documents_then_new_store_is_empty clinic false fresh).
  - exact clinic_has_records.
  - right. reflexivity.
  - vm_compute. reflexivity.
  - intro a. reflexivity.
  - reflexivity.
Defined.

Lemma glob_matches_prefix_and_suffix_witness :
  In "docs/clean/me_chunk_a.txt" (glob_chunks clinic)
  <-> exists mid,
        In ("me_chunk_" ++ mid ++ ".txt")%string (listdir clinic)
        /\ "docs/clean/me_chunk_a.txt"
           = PyStr.path_join (DOCS_DIR clinic)
               ("me_chunk_" ++ mid ++ ".txt")%string.
Proof.
  apply (glob_matches_prefix_and_suffix clinic "docs/clean/me_chunk_a.txt").
  reflexivity.
Defined.

Lemma load_documents_propagates_fit_failure_witness :
  exists w',
    load_documents stop_words_only false fresh = (Raise ValueError, w')
    /\ self w' = mkStore None [] (vectors (self fresh))
    /\ db w' = db fresh.
Proof.
  eapply (load_documents_propagates_fit_failure stop_words_only false fresh).
  - vm_compute. discriminate.
  - right. reflexivity.
  - vm_compute. reflexivity.
Defined.

Lemma second_unforced_load_does_nothing_witness :
  exists w1 w2,
    load_documents clinic false fresh = (Ok tt, w1)
    /\ load_documents barren false w1 = (Ok tt, w2)
    /\ self w2 = self w1 /\ db w2 = db w1.
Proof.
  eapply (second_unforced_load_does_nothing clinic barren false fresh).
  - exact clinic_has_records.
  - right. reflexivity.
  - vm_compute. reflexivity.
Defined.

Lemma file_id_is_the_stem_witness :
  file_id_of (PyStr.path_join "docs/clean" "me_chunk_a.txt") = "me_chunk_a".
Proof.
  apply (file_id_is_the_stem "docs/clean" "me_chunk_a"); reflexivity.
Defined.

Lemma artifact_paths_distinct_witness :
  artifact_path "data/chromadb" CHROMA_COLLECTION_NAME VectorizerPkl
  <> artifact_path "data/chromadb" CHROMA_COLLECTION_NAME VectorsNpy.
Proof.
  apply artifact_paths_distinct. discriminate.
Defined.

Lemma load_accounts_for_every_chunk_witness :
  exists w',
    load_documents clinic false fresh = (Ok tt, w')
    /\ document_count (get_status (self w'))
       + List.length (filter (unreadable_file clinic) (glob_chunks clinic))
       + List.length (filter (blank_file clinic) (glob_chunks clinic))
       = List.length (glob_chunks clinic).
Proof.
  eapply (load_accounts_for_every_chunk clinic false fresh).
  - exact clinic_has_records.
  - right. reflexivity.
  - vm_compute. reflexivity.
Defined.

Lemma indexed_documents_are_stripped_chunks_witness :
  exists w',
    load_documents clinic false fresh = (Ok tt, w')
    /\ Forall (fun d =>
                 In (source (metadata d)) (glob_chunks clinic)
                 /\ (exists text,
                       read_text clinic (source (metadata d)) = Ok text
                       /\ content d = PyStr.strip text)
                 /\ content d <> EmptyString
                 /\ PyStr.strip (content d) = content d
                 /\ id d = file_id_of (source (metadata d)))
              (document_data (self w')).
Proof.
  eapply (indexed_documents_are_stripped_chunks clinic false fresh).
  - exact clinic_has_records.
  - right. reflexivity.
  - vm_compute. reflexivity.
Defined.

Lemma save_torn_at_matrix_witness :
  exists m,
    save_model clinic_matrix_readonly indexed
    = (Ok tt,
       mkWorld (self indexed)
               (mkDb (Written (pickle_dump (vectorizer (self indexed))))
                     (Written (json_dump (document_data (self indexed))))
                     (vectors_file (db indexed)))
               (log indexed ++ [(ERROR, ErrorSavingModel OSError)]))
    /\ vectors (self indexed) = Some m.
Proof.
  eexists. split.
  - eapply (save_torn_at_matrix clinic_matrix_readonly indexed); reflexivity.
  - reflexivity.
Defined.

End MoreRuns.

(** ** Every path of a load, and of a construction *)

Section Paths.

Context {E : Externals}.

Lemma scans_or_skips (force : bool) (w : World) :
  (force = true \/ count (self w) = 0) \/ (force = false /\ 0 < count (self w)).
Proof.
  destruct force; [left; left; reflexivity|].
  destruct (count (self w)) eqn:Hc; [left; right; reflexivity|].
  right. split; [reflexivity|lia].
Qed.

(** X18. The only exception [load_documents] lets out is the one of the
    fit: read errors and save errors are caught, and in every other case
    it returns normally. *)
Theorem load_documents_raises_only_from_fit (env : Env) (force : bool)
    (w : World) :
  exists r w',
    load_documents env force w = (r, w')
    /\ (r = Ok tt
        \/ exists e v',
             r = Raise e
             /\ flat_map (record_for env) (glob_chunks env) <> []
             /\ fit_transform (vectorizer (self w))
                  (map content (flat_map (record_for env) (glob_chunks env)))
                = (Raise e, v')).
Proof.
  destruct (scans_or_skips force w) as [Hscan|[-> Hpos]].
  2:{ rewrite (load_documents_skips env w Hpos). eexists _, _. auto. }
  assert (Hcase : flat_map (record_for env) (glob_chunks env) = []
                  \/ flat_map (record_for env) (glob_chunks env) <> []).
  { destruct (flat_map (record_for env) (glob_chunks env));
      [left; reflexivity|right; discriminate]. }
  destruct Hcase as [Hrecs|Hne].
  { rewrite (load_documents_nothing_usable env force w Hrecs Hscan).
    eexists _, _. auto. }
  destruct (fit_transform (vectorizer (self w))
              (map content (flat_map (record_for env) (glob_chunks env))))
    as [[m|e] v'] eqn:Hfit.
  - destruct (load_documents_fitted env force w m v' Hne Hscan Hfit)
      as [w' [Hl _]].
    exists (Ok tt), w'. auto.
  - destruct (load_documents_fit_raises env force w e v' Hne Hscan Hfit)
      as [w' [Hl _]].
    exists (Raise e), w'. split; [exact Hl|]. right. exists e, v'. auto.
Qed.

(** X19. [load_documents] keeps the store consistent on every path (skip,
    nothing usable, fit, failed fit): from a store whose matrix has a row
    per document it leaves such a store, for a fit that returns one row per
    document. *)
Theorem load_documents_keeps_consistent (env : Env) (force : bool) (w : World) :
  fit_gives_a_row_per_document ->
  consistent (self w) ->
  consistent (self (snd (load_documents env force w))).
Proof.
  intros Hfitrows Hc.
  assert (Hcleared :
            forall v, force = true \/ count (self w) = 0 ->
                      consistent (mkStore v []
                                    (if force then None else vectors (self w)))).
  { intros v [->|Hz]; [reflexivity|].
    destruct force; [reflexivity|].
    unfold consistent in *. simpl.
    unfold count in Hz. apply length_zero_iff_nil in Hz.
    rewrite Hz in Hc. exact Hc. }
  destruct (scans_or_skips force w) as [Hscan|[-> Hpos]].
  2:{ rewrite (load_documents_skips env w Hpos). exact Hc. }
  assert (Hcase : flat_map (record_for env) (glob_chunks env) = []
                  \/ flat_map (record_for env) (glob_chunks env) <> []).
  { destruct (flat_map (record_for env) (glob_chunks env));
      [left; reflexivity|right; discriminate]. }
  destruct Hcase as [Hrecs|Hne].
  { rewrite (load_documents_nothing_usable env force w Hrecs Hscan). simpl.
    apply Hcleared, Hscan. }
  destruct (fit_transform (vectorizer (self w))
              (map content (flat_map (record_for env) (glob_chunks env))))
    as [[m|e] v'] eqn:Hfit.
  - destruct (load_documents_fitted env force w m v' Hne Hscan Hfit)
      as [w' [Hl Hs]].
    rewrite Hl. simpl. rewrite Hs. unfold consistent. simpl.
    rewrite (Hfitrows _ _ _ _ Hfit). apply length_map.
  - destruct (load_documents_fit_raises env force w e v' Hne Hscan Hfit)
      as [w' [Hl [Hs _]]].
    rewrite Hl. simpl. rewrite Hs. apply Hcleared, Hscan.
Qed.

(** X20. When the three artifacts exist and one of them does not load,
    [__init__] logs the error and then still logs that the existing model
    was loaded, over an empty store. *)
Theorem init_logs_loaded_after_failed_load (w : World) :
  path_exists VectorizerPkl (db w) = true ->
  path_exists DocumentsJson (db w) = true ->
  path_exists VectorsNpy (db w) = true ->
  unusable pickle_load (vectorizer_file (db w))
  \/ unusable json_load (documents_file (db w))
  \/ unusable np_load (vectors_file (db w)) ->
  exists e,
    init w
    = (Ok tt,
       mkWorld empty_store (db w)
               (log w ++ [(ERROR, ErrorLoadingModel e);
                          (INFO, LoadedExistingModel)])).
Proof.
  destruct w as [s [fv fd fm] l]. unfold path_exists, db_get. simpl.
  intros Hv Hd Hm Hun.
  unfold init, load_model, try_except, bind, ret, lift, get_self,
    set_vectorizer, set_document_data, set_vectors, logger, read_artifact,
    path_exists, db_get. simpl.
  destruct fv as [| |bv]; [discriminate| |];
    destruct fd as [| |bd]; try discriminate;
    destruct fm as [| |bm]; try discriminate; simpl;
    repeat match goal with
      | |- context [pickle_load ?b] => destruct (pickle_load b) eqn:?; simpl
      | |- context [json_load ?b] => destruct (json_load b) eqn:?; simpl
      | |- context [np_load ?b] => destruct (np_load b) eqn:?; simpl
      end;
    try (eexists; rewrite <- app_assoc; reflexivity).
  exfalso. unfold unusable in Hun.
  destruct Hun as [H|[H|H]];
    destruct H as [H|[H|[b [e [H H']]]]]; try discriminate;
    injection H as <-; congruence.
Qed.

End Paths.

Section PathRuns.

Import Ref.
Import Cases.

Lemma ref_fit_gives_a_row_per_document : @fit_gives_a_row_per_document externals.
Proof.
  intros v documents m v' H. simpl in H. unfold ref_fit_transform in H.
  destruct (nodup string_dec (flat_map tokenize documents)); [discriminate|].
  injection H as <- _. simpl. apply length_map.
Qed.

Lemma load_documents_keeps_consistent_witness :
  consistent (self (snd (load_documents clinic_matrix_readonly true indexed))).
Proof.
  apply load_documents_keeps_consistent.
  - exact ref_fit_gives_a_row_per_document.
  - reflexivity.
Defined.

Lemma init_logs_loaded_after_failed_load_witness :
  exists e,
    init (boot (db (after (save_model records_dump_fails) indexed)))
    = (Ok tt,
       mkWorld empty_store (db (after (save_model records_dump_fails) indexed))
               ([] ++ [(ERROR, ErrorLoadingModel e);
                       (INFO, LoadedExistingModel)])).
Proof.
  apply (init_logs_loaded_after_failed_load
           (boot (db (after (save_model records_dump_fails) indexed))));
    try reflexivity.
  right. left. right. left. reflexivity.
Defined.

End PathRuns.
